(** * Job-to-framework translation layer of the rest-server

    A shallow embedding of the framework-controller client of the
    rest-server (name codec, state mapper, framework description builder,
    status projection, controller requests) and of the user model
    (idempotent creation of a user), with the properties their
    specification states about them.

    JavaScript strings are sequences of UTF-16 code units ([list N]),
    JavaScript values a small inductive type, objects association lists in
    insertion order, [async] functions programs that await the calls of an
    external service. *)

From Stdlib Require Import List NArith ZArith String Ascii Bool Lia.
From Stdlib Require Import DecimalString Permutation Sorted.
Import ListNotations.

Set Implicit Arguments.
Set Warnings "-register-all".


(* ================================================================= *)
(** ** JavaScript strings and values *)

Module JS.

Local Open Scope N_scope.

(** A string is its sequence of UTF-16 code units. *)
Definition jsstring := list N.

(** A string literal of the source (Basic Latin characters only). *)
Definition str (s : string) : jsstring :=
  map N_of_ascii (list_ascii_of_string s).

(** Well-formed strings: every unit fits in sixteen bits. *)
Definition wfString (s : jsstring) : Prop := Forall (fun c => c < 65536) s.

Fixpoint str_eqb (a b : jsstring) : bool :=
  match a, b with
  | [], [] => true
  | c :: a', d :: b' => (c =? d) && str_eqb a' b'
  | _, _ => false
  end.

(** [s.startsWith(p)] *)
Fixpoint startsWith (s p : jsstring) {struct p} : bool :=
  match p, s with
  | [], _ => true
  | c :: p', d :: s' => (c =? d) && startsWith s' p'
  | _ :: _, [] => false
  end.

(** [s.includes(sub)] *)
Fixpoint includes (s sub : jsstring) : bool :=
  startsWith s sub ||
  match s with
  | [] => false
  | _ :: s' => includes s' sub
  end.

(** [s.replace(/^p/g, '')] for a literal [p]: the pattern is anchored at
    the start, so at most the leading occurrence is removed. *)
Definition stripPrefix (p s : jsstring) : jsstring :=
  if startsWith s p then skipn (List.length p) s else s.

(** [s.charAt(0)] and [s.slice(1)] *)
Definition charAt0 (s : jsstring) : jsstring :=
  match s with
  | [] => []
  | c :: _ => [c]
  end.

Definition slice1 (s : jsstring) : jsstring := tl s.

Definition isBasicLatin (c : N) : bool := c <? 128.

Definition lowerLatin (c : N) : N :=
  if (65 <=? c) && (c <=? 90) then c + 32 else c.

Definition upperLatin (c : N) : N :=
  if (97 <=? c) && (c <=? 122) then c - 32 else c.

(** [s.toLowerCase()] and [s.toUpperCase()].  On a string of Basic Latin
    units the mapping is the one of the letters A-Z and a-z; on any other
    string it is the Unicode case mapping of the engine, which is not part
    of the repository and is taken as the argument [U]. *)
Definition toLowerCase (U : jsstring -> jsstring) (s : jsstring) : jsstring :=
  if forallb isBasicLatin s then map lowerLatin s else U s.

Definition toUpperCase (U : jsstring -> jsstring) (s : jsstring) : jsstring :=
  if forallb isBasicLatin s then map upperLatin s else U s.

(** The class [[a-z0-9]]. *)
Definition isLowerAlnum (c : N) : bool :=
  ((97 <=? c) && (c <=? 122)) || ((48 <=? c) && (c <=? 57)).

(** The lower-case hexadecimal digits [[0-9a-f]]. *)
Definition isLowerHex (c : N) : bool :=
  ((48 <=? c) && (c <=? 57)) || ((97 <=? c) && (c <=? 102)).

(** Line terminators, the units the regular expression [.] rejects. *)
Definition isLineTerminator (c : N) : bool :=
  (c =? 10) || (c =? 13) || (c =? 8232) || (c =? 8233).

Definition tilde : N := 126.

Definition startsDot (s : jsstring) : bool :=
  match s with
  | [] => false
  | d :: _ => negb (isLineTerminator d)
  end.

(** [s.split(/~(.+)/)].  The string is scanned from the left; a match
    starts at a [~] followed by a unit that is not a line terminator, and
    its group takes the longest run of such units.  Each match closes the
    pending segment and contributes its group; the segment after the last
    match closes the array.  [capturing] tells whether the scan is inside
    the group, [acc] is the pending segment or group, reversed. *)
Fixpoint splitTilde (capturing : bool) (acc s : jsstring) : list jsstring :=
  match s with
  | [] => if capturing then [rev acc; []] else [rev acc]
  | c :: rest =>
      if capturing then
        if isLineTerminator c
        then rev acc :: splitTilde false [c] rest
        else splitTilde true (c :: acc) rest
      else
        if (c =? tilde) && startsDot rest
        then rev acc :: splitTilde true [] rest
        else splitTilde false (c :: acc) rest
  end.

Definition split_tilde_group (s : jsstring) : list jsstring :=
  splitTilde false [] s.

(** JavaScript values.  Numbers are the integers the program handles, or
    [NaN]. *)
Inductive jsval : Type :=
| JUndefined
| JNull
| JBool (b : bool)
| JNum (z : Z)
| JNaN
| JStr (s : jsstring)
| JArr (l : list jsval)
| JObj (fields : list (jsstring * jsval)).

(** [a[i]] on an array of strings: [undefined] out of range. *)
Definition index (l : list jsstring) (i : nat) : jsval :=
  match nth_error l i with
  | Some s => JStr s
  | None => JUndefined
  end.

(** The integers of the range where every integer is a double,
    [-2^53 .. 2^53]. *)
Definition exactInteger (z : Z) : bool :=
  ((- 9007199254740992 <=? z) && (z <=? 9007199254740992))%Z.

(** Decimal rendering of an integer, as a template literal renders the
    integers of that range: all their digits, without exponent. *)
Definition decimal (z : Z) : jsstring :=
  str (NilZero.string_of_int (Z.to_int z)).

Definition joinWith (sep : jsstring) (l : list jsstring) : jsstring :=
  match l with
  | [] => []
  | x :: xs => x ++ flat_map (fun y => sep ++ y) xs
  end.

(** [`${v}`] *)
Fixpoint toStringJs (v : jsval) : jsstring :=
  match v with
  | JUndefined => str "undefined"
  | JNull => str "null"
  | JBool true => str "true"
  | JBool false => str "false"
  | JNum z => decimal z
  | JNaN => str "NaN"
  | JStr s => s
  | JArr l =>
      joinWith (str ",")
        (map (fun x => match x with
                       | JUndefined | JNull => []
                       | _ => toStringJs x
                       end) l)
  | JObj _ => str "[object Object]"
  end.

(** Truthiness, as [||], [&&] and [?:] test it. *)
Definition truthy (v : jsval) : bool :=
  match v with
  | JUndefined | JNull | JNaN => false
  | JBool b => b
  | JNum z => negb (z =? 0)%Z
  | JStr s => match s with [] => false | _ => true end
  | JArr _ | JObj _ => true
  end.

(** Property read and write on an object given by its fields. *)
Fixpoint getField (k : jsstring) (fs : list (jsstring * jsval)) : jsval :=
  match fs with
  | [] => JUndefined
  | (k', v) :: fs' => if str_eqb k k' then v else getField k fs'
  end.

Fixpoint setField (k : jsstring) (v : jsval) (fs : list (jsstring * jsval))
  : list (jsstring * jsval) :=
  match fs with
  | [] => [(k, v)]
  | (k', v') :: fs' =>
      if str_eqb k k' then (k, v) :: fs' else (k', v') :: setField k v fs'
  end.

Definition get (k : string) (v : jsval) : jsval :=
  match v with
  | JObj fs => getField (str k) fs
  | _ => JUndefined
  end.

End JS.

Import JS.

(* ================================================================= *)
(** ** Buffers *)

Module Buffer.

Local Open Scope N_scope.

Definition bytes := list N.

Definition isHighSurrogate (c : N) : bool := (55296 <=? c) && (c <? 56320).
Definition isLowSurrogate (c : N) : bool := (56320 <=? c) && (c <? 57344).

Definition utf8_2 (c : N) : bytes := [192 + c / 64; 128 + c mod 64].
Definition utf8_3 (c : N) : bytes :=
  [224 + c / 4096; 128 + (c / 64) mod 64; 128 + c mod 64].
Definition utf8_4 (c : N) : bytes :=
  [240 + c / 262144; 128 + (c / 4096) mod 64; 128 + (c / 64) mod 64;
   128 + c mod 64].

(** U+FFFD, written for a surrogate without its partner. *)
Definition replacement : bytes := [239; 191; 189].

(** [Buffer.from(s)]: the UTF-8 bytes of the string. *)
Fixpoint from_utf8 (s : jsstring) : bytes :=
  match s with
  | [] => []
  | c :: rest =>
      if c <? 128 then c :: from_utf8 rest
      else if c <? 2048 then utf8_2 c ++ from_utf8 rest
      else if isHighSurrogate c then
        match rest with
        | d :: rest' =>
            if isLowSurrogate d
            then utf8_4 (65536 + (c - 55296) * 1024 + (d - 56320))
                   ++ from_utf8 rest'
            else replacement ++ from_utf8 rest
        | [] => replacement
        end
      else if isLowSurrogate c then replacement ++ from_utf8 rest
      else utf8_3 c ++ from_utf8 rest
  end.

Definition hexDigit (d : N) : N :=
  let d := d mod 16 in if d <? 10 then 48 + d else 87 + d.

(** [buf.toString('hex')]: two lower-case digits a byte. *)
Definition toString_hex (b : bytes) : jsstring :=
  flat_map (fun x => [hexDigit (x / 16); hexDigit x]) b.

Definition unhex (c : N) : option N :=
  if (48 <=? c) && (c <=? 57) then Some (c - 48)
  else if (97 <=? c) && (c <=? 102) then Some (c - 87)
  else if (65 <=? c) && (c <=? 70) then Some (c - 55)
  else None.

(** The decoder reads each code unit through an eight-bit character: only
    the low byte of the unit is looked at. *)
Definition lowByte (c : N) : N := N.land c 255.

(** [Buffer.from(s, 'hex')]: decoding stops at the first pair that is not
    two hexadecimal digits; a trailing single digit is dropped. *)
Fixpoint from_hex (s : jsstring) : bytes :=
  match s with
  | h :: l :: rest =>
      match unhex (lowByte h), unhex (lowByte l) with
      | Some a, Some b => (16 * a + b) :: from_hex rest
      | _, _ => []
      end
  | _ => []
  end.

(** [buf.toString('ascii')]: the highest bit of each byte is unset. *)
Definition toString_ascii (b : bytes) : jsstring :=
  map (fun x => N.land x 127) b.

End Buffer.

(* ================================================================= *)
(** ** Name codec *)

Section NameCodec.

(** The engine's case mapping outside Basic Latin. *)
Variable unicodeLower : jsstring -> jsstring.

(** convert framework name to fit framework controller spec *)
Definition convertName (name : jsstring) : jsstring :=
  filter isLowerAlnum (toLowerCase unicodeLower name).

Definition encodeName (name : jsstring) : jsstring :=
  if startsWith name (str "unknown") || negb (includes name (str "~"))
  then convertName (stripPrefix (str "unknown") name)
  else str "hex" ++ Buffer.toString_hex (Buffer.from_utf8 name).

End NameCodec.

Definition decodeName (name : jsstring) : jsval :=
  if startsWith name (str "hex") then
    let frameworkName :=
      Buffer.toString_ascii (Buffer.from_hex (stripPrefix (str "hex") name)) in
    index (split_tilde_group frameworkName) 1
  else JStr name.

(* ================================================================= *)
(** ** State mapper *)

Definition isZero (v : jsval) : bool :=
  match v with
  | JNum z => (z =? 0)%Z
  | _ => false
  end.

(** The [switch] compares [state] with each label in turn. *)
Definition convertState (state : jsstring) (exitCode : jsval) : jsstring :=
  if str_eqb state (str "AttemptCreationPending")
     || str_eqb state (str "AttemptCreationRequested")
     || str_eqb state (str "AttemptPreparing")
  then str "WAITING"
  else if str_eqb state (str "AttemptRunning")
  then str "RUNNING"
  else if str_eqb state (str "AttemptDeletionPending")
          || str_eqb state (str "AttemptDeletionRequested")
          || str_eqb state (str "AttemptDeleting")
          || str_eqb state (str "AttemptCompleted")
  then str "WAITING"
  else if str_eqb state (str "Completed")
  then (if isZero exitCode then str "SUCCEEDED" else str "FAILED")
  else str "UNKNOWN".

(* ================================================================= *)
(** ** Objects of the framework controller *)

(** A time field of a controller object: missing, [null], or a string. *)
Inductive timeField : Type :=
| TimeAbsent
| TimeNull
| TimeString (s : jsstring).

Record CompletionStatus : Type := {
  cs_code : jsval;
  cs_diagnostics : jsval;
  cs_type_name : jsval
}.

Record TaskAttemptStatus : Type := {
  podName : jsval;
  podHostIP : jsval;
  ta_completionStatus : option CompletionStatus
}.

Record TaskStatus : Type := {
  ts_index : jsval;
  ts_state : jsstring;
  ts_attemptStatus : TaskAttemptStatus
}.

Record TaskRoleStatus : Type := {
  trs_name : jsstring;
  taskStatuses : list TaskStatus
}.

Record AttemptStatus : Type := {
  completionStatus : option CompletionStatus;
  instanceUID : jsval;
  taskRoleStatuses : list TaskRoleStatus
}.

Record RetryPolicyStatus : Type := {
  totalRetriedCount : Z;
  accountableRetriedCount : Z
}.

Record FrameworkStatus : Type := {
  state : jsstring;
  startTime : timeField;
  completionTime : timeField;
  retryPolicyStatus : RetryPolicyStatus;
  attemptStatus : AttemptStatus
}.

Record Labels : Type := {
  lb_userName : jsval;
  lb_virtualCluster : jsval
}.

(** [an_config] is [None] when the annotations have no [config] key. *)
Record Annotations : Type := {
  an_config : option jsstring
}.

Record Metadata : Type := {
  md_name : jsstring;
  labels : option Labels;
  annotations : option Annotations
}.

Record FrameworkSpec : Type := {
  executionType : jsstring
}.

Record Framework : Type := {
  metadata : Metadata;
  spec : FrameworkSpec;
  status : FrameworkStatus
}.

(* ================================================================= *)
(** ** Job configuration *)

Record ResourcePerInstance : Type := {
  cpu : jsval;
  memoryMB : jsval;
  gpu : jsval
}.

(** A field is [None] when its key is not in the object. *)
Record Completion : Type := {
  minFailedInstances : option jsval;
  minSucceededInstances : option jsval
}.

Record TaskRoleConfig : Type := {
  instances : jsval;
  entrypoint : jsval;
  dockerImage : jsstring;
  resourcePerInstance : ResourcePerInstance;
  completion : option Completion;
  hivedPodSpec : jsval
}.

(** [dockerimage] is [config.prerequisites.dockerimage], each image given by
    its [uri]; [defaults_virtualCluster] is [None] without a [defaults]
    key. *)
Record JobConfig : Type := {
  jobRetryCount : jsval;
  taskRoles : list (jsstring * TaskRoleConfig);
  dockerimage : list (jsstring * jsval);
  defaults_virtualCluster : option jsval
}.

(* ================================================================= *)
(** ** Results, exceptions and the environment of the module *)

Inductive Result (E A : Type) : Type :=
| Return (a : A)
| Throw (e : E).

Arguments Return {E A} a.
Arguments Throw {E A} e.

(** The body of a response of the controller: a status object with its
    [message], a framework, or a list of frameworks with its [items]. *)
Inductive ResponseData : Type :=
| StatusBody (message : jsval)
| FrameworkBody (fw : Framework)
| FrameworkListBody (items : list Framework).

Record Response : Type := {
  rs_status : Z;
  rs_data : ResponseData
}.

(** The error [axios] rejects with; [ae_response] is [error.response]. *)
Record AxiosError : Type := {
  ae_response : option Response;
  ae_cause : jsval
}.

(** What the module throws: a [TypeError] of the engine, an error value
    (one built by [createError], or an exception of a library), or the
    error [axios] rejected with. *)
Inductive Exn : Type :=
| TypeError
| Thrown (error : jsval)
| TransportError (error : AxiosError).

Record LauncherConfig : Type := {
  runtimeImage : jsval;
  apiServerUri : jsval;
  runtimeImagePullSecrets : jsval;
  enabledHived : jsval;
  scheduler : jsval;
  apiVersion : jsval;
  requestHeaders : jsval;
  frameworksPath : jsstring;
  frameworkPath : jsstring -> jsstring
}.

(** The collaborators of the module that are not part of it: the case
    mappings and the date parser of the engine, the YAML library (whose
    [safeDump] and [safeLoad] return or throw), the error constructor
    [createError(status, code, message)] of [@pai/utils/error], the
    launcher configuration, the runtime environment generator, the draws
    of [Math.floor((Math.random() * 10000) + 10000)], numbered in the order
    they are made, and the rounding of the engine's subtraction where a
    difference is not exact ([inexactMinus]). *)
Record Host : Type := {
  unicodeLower : jsstring -> jsstring;
  unicodeUpper : jsstring -> jsstring;
  dateParse : jsstring -> option Z;
  safeDump : jsval -> Result Exn jsval;
  safeLoad : jsstring -> Result Exn jsval;
  createError : jsval -> jsstring -> jsval -> jsval;
  launcherConfig : LauncherConfig;
  generateFrameworkEnv : jsstring -> JobConfig -> list (jsstring * jsval);
  randomPort : nat -> Z;
  inexactMinus : Z -> Z -> jsval
}.

(** [status('OK')], [status('Not Found')], [status('Created')]: the codes
    the [statuses] package gives for these messages. *)
Definition status_OK : Z := 200.
Definition status_NotFound : Z := 404.
Definition status_Created : Z := 201.

(* ================================================================= *)
(** ** Object construction helpers *)

Notation "k ':-' v" := (str k, v) (at level 60, no associativity).

Inductive pathElem : Type :=
| Key (k : string)
| Idx (n : nat).

Fixpoint updateNth (A : Type) (n : nat) (f : A -> A) (l : list A) : list A :=
  match l, n with
  | [], _ => []
  | x :: l', O => f x :: l'
  | x :: l', S n' => x :: updateNth n' f l'
  end.

(** [v.p1.p2...pn = f(v.p1.p2...pn)] along a path of keys and indices. *)
Fixpoint modifyAt (path : list pathElem) (f : jsval -> jsval) (v : jsval)
  : jsval :=
  match path with
  | [] => f v
  | Key k :: p =>
      match v with
      | JObj fs => JObj (setField (str k) (modifyAt p f (getField (str k) fs)) fs)
      | _ => v
      end
  | Idx n :: p =>
      match v with
      | JArr l => JArr (updateNth n (modifyAt p f) l)
      | _ => v
      end
  end.

(** [o[k] = x], [delete o[k]] and [a.push(...xs)] *)
Definition assign (k : string) (x : jsval) (o : jsval) : jsval :=
  match o with
  | JObj fs => JObj (setField (str k) x fs)
  | _ => o
  end.

Definition delete (k : string) (o : jsval) : jsval :=
  match o with
  | JObj fs => JObj (filter (fun kv => negb (str_eqb (str k) (fst kv))) fs)
  | _ => o
  end.

Definition push (xs : list jsval) (a : jsval) : jsval :=
  match a with
  | JArr l => JArr (l ++ xs)
  | _ => a
  end.

Fixpoint lookup (A : Type) (k : jsstring) (l : list (jsstring * A))
  : option A :=
  match l with
  | [] => None
  | (k', v) :: l' => if str_eqb k k' then Some v else lookup k l'
  end.

(** [o[k] = v] for a computed key, on the own fields of a plain object:
    the key [__proto__] is the accessor of [Object.prototype], so that the
    assignment changes at most the prototype and adds no field.  Fields
    are kept in the order of their creation; [objectKeys] gives the order
    in which the object enumerates them. *)
Definition assignOwn (k : jsstring) (v : jsval) (fs : list (jsstring * jsval))
  : list (jsstring * jsval) :=
  if str_eqb k (str "__proto__") then fs else setField k v fs.

(** [Object.keys(o)]: the own keys that are array indices (canonical
    decimal numerals up to [2^32 - 2]) in ascending order, then the other
    keys in insertion order. *)
Definition isDigit (c : N) : bool := ((48 <=? c) && (c <=? 57))%N.

Definition digitsValue (k : jsstring) : N :=
  fold_left (fun v c => (10 * v + (c - 48))%N) k 0%N.

Definition arrayIndex (k : jsstring) : option N :=
  match k with
  | [] => None
  | c :: rest =>
      if forallb isDigit k
         && (negb (c =? 48)%N || match rest with [] => true | _ => false end)
         && (List.length k <=? 10)%nat
         && (digitsValue k <=? 4294967294)%N
      then Some (digitsValue k)
      else None
  end.

Fixpoint insertIndex (v : N) (k : jsstring) (l : list (N * jsstring))
  : list (N * jsstring) :=
  match l with
  | [] => [(v, k)]
  | (w, k') :: l' =>
      if (v <? w)%N then (v, k) :: l else (w, k') :: insertIndex v k l'
  end.

Fixpoint indexKeys (keys : list jsstring) : list (N * jsstring) :=
  match keys with
  | [] => []
  | k :: rest =>
      match arrayIndex k with
      | Some v => insertIndex v k (indexKeys rest)
      | None => indexKeys rest
      end
  end.

Definition isName (k : jsstring) : bool :=
  match arrayIndex k with
  | Some _ => false
  | None => true
  end.

Definition objectKeys (A : Type) (fs : list (jsstring * A)) : list jsstring :=
  map snd (indexKeys (map fst fs)) ++ filter isName (map fst fs).

(** Keys every object inherits from [Object.prototype]: reading one of
    them from an object that lacks it gives a value without [uri]. *)
Definition objectPrototypeKeys : list jsstring :=
  map str ["constructor"; "toString"; "toLocaleString"; "valueOf";
           "hasOwnProperty"; "isPrototypeOf"; "propertyIsEnumerable";
           "__proto__"; "__defineGetter__"; "__defineSetter__";
           "__lookupGetter__"; "__lookupSetter__"]%string.

(* ================================================================= *)
(** ** Status projection *)

Section Projection.

Variable H : Host.

(** [new Date(t).getTime()] *)
Definition newDateGetTime (t : timeField) : jsval :=
  match t with
  | TimeAbsent => JNaN
  | TimeNull => JNum 0
  | TimeString s =>
      match dateParse H s with
      | Some ms => JNum ms
      | None => JNaN
      end
  end.

(** [completionStatus ? completionStatus.f : null] *)
Definition orNull (cs : option CompletionStatus)
  (f : CompletionStatus -> jsval) : jsval :=
  match cs with
  | Some c => f c
  | None => JNull
  end.

(** [labels ? labels.f : 'unknown'] *)
Definition labelOrUnknown (lb : option Labels) (f : Labels -> jsval) : jsval :=
  match lb with
  | Some l => f l
  | None => JStr (str "unknown")
  end.

(** [x - y] on numbers.  The difference of two integers is the integer
    difference when both and their difference are in the range where
    every integer is a double; outside that range it is rounded by the
    engine. *)
Definition minusNum (x y : Z) : jsval :=
  if exactInteger x && exactInteger y && exactInteger (x - y)
  then JNum (x - y)%Z
  else inexactMinus H x y.

Definition retryDetails (rp : RetryPolicyStatus) : jsval :=
  JObj [ "user" :- JNum (accountableRetriedCount rp);
         "platform" :-
           minusNum (totalRetriedCount rp) (accountableRetriedCount rp);
         "resource" :- JNum 0 ].

Definition convertFrameworkSummary (framework : Framework) : jsval :=
  let completionStatus := completionStatus (attemptStatus (status framework)) in
  JObj [
    "name" :- decodeName (md_name (metadata framework));
    "username" :- labelOrUnknown (labels (metadata framework)) lb_userName;
    "state" :- JStr (convertState (state (status framework))
                       (orNull completionStatus cs_code));
    "subState" :- JStr (state (status framework));
    "executionType" :-
      JStr (toUpperCase (unicodeUpper H) (executionType (spec framework)));
    "retries" :- JNum (totalRetriedCount (retryPolicyStatus (status framework)));
    "retryDetails" :- retryDetails (retryPolicyStatus (status framework));
    "createdTime" :- newDateGetTime (startTime (status framework));
    "completedTime" :- newDateGetTime (completionTime (status framework));
    "appExitCode" :- orNull completionStatus cs_code;
    "virtualCluster" :-
      labelOrUnknown (labels (metadata framework)) lb_virtualCluster;
    "totalGpuNumber" :- JNum 0;
    "totalTaskNumber" :-
      JNum (fold_left
              (fun num statuses =>
                 (num + Z.of_nat (List.length (taskStatuses statuses)))%Z)
              (taskRoleStatuses (attemptStatus (status framework))) 0%Z);
    "totalTaskRoleNumber" :-
      JNum (Z.of_nat
              (List.length (taskRoleStatuses (attemptStatus (status framework)))))
  ].

Definition convertTaskDetail (taskStatus : TaskStatus) : jsval :=
  let completionStatus := ta_completionStatus (ts_attemptStatus taskStatus) in
  JObj [
    "taskIndex" :- ts_index taskStatus;
    "taskState" :- JStr (convertState (ts_state taskStatus)
                           (orNull completionStatus cs_code));
    "containerId" :- podName (ts_attemptStatus taskStatus);
    "containerIp" :- podHostIP (ts_attemptStatus taskStatus);
    "containerPorts" :- JObj [];
    "containerGpus" :- JNum 0;
    "containerLog" :- JStr [];
    "containerExitCode" :- orNull completionStatus cs_code
  ].

Definition convertFrameworkDetail (framework : Framework) : jsval :=
  let completionStatus := completionStatus (attemptStatus (status framework)) in
  let detail := JObj [
    "name" :- decodeName (md_name (metadata framework));
    "jobStatus" :- JObj [
      "username" :- labelOrUnknown (labels (metadata framework)) lb_userName;
      "state" :- JStr (convertState (state (status framework))
                         (orNull completionStatus cs_code));
      "subState" :- JStr (state (status framework));
      "executionType" :-
        JStr (toUpperCase (unicodeUpper H) (executionType (spec framework)));
      "retries" :-
        JNum (totalRetriedCount (retryPolicyStatus (status framework)));
      "retryDetails" :- retryDetails (retryPolicyStatus (status framework));
      "createdTime" :- newDateGetTime (startTime (status framework));
      "completedTime" :- newDateGetTime (completionTime (status framework));
      "appId" :- instanceUID (attemptStatus (status framework));
      "appProgress" :-
        JNum (match completionStatus with Some _ => 1 | None => 0 end);
      "appTrackingUrl" :- JStr [];
      "appLaunchedTime" :- newDateGetTime (startTime (status framework));
      "appCompletedTime" :- newDateGetTime (completionTime (status framework));
      "appExitCode" :- orNull completionStatus cs_code;
      "appExitSpec" :- JObj [];
      "appExitDiagnostics" :- orNull completionStatus cs_diagnostics;
      "appExitMessages" :- JObj [
        "container" :- JNull;
        "runtime" :- JNull;
        "launcher" :- JNull ];
      "appExitTriggerMessage" :- orNull completionStatus cs_diagnostics;
      "appExitTriggerTaskRoleName" :- JNull;
      "appExitTriggerTaskIndex" :- JNull;
      "appExitType" :- orNull completionStatus cs_type_name;
      "virtualCluster" :-
        labelOrUnknown (labels (metadata framework)) lb_virtualCluster ];
    "taskRoles" :- JObj [] ] in
  fold_left
    (fun detail taskRoleStatus =>
       modifyAt [Key "taskRoles"]
         (fun roles =>
            match roles with
            | JObj fs =>
                JObj (assignOwn (trs_name taskRoleStatus)
                        (JObj [
                           "taskRoleStatus" :-
                             JObj [ "name" :- JStr (trs_name taskRoleStatus) ];
                           "taskStatuses" :-
                             JArr (map convertTaskDetail
                                     (taskStatuses taskRoleStatus)) ])
                        fs)
            | _ => roles
            end)
         detail)
    (taskRoleStatuses (attemptStatus (status framework)))
    detail.

End Projection.

(* ================================================================= *)
(** ** Framework description builder *)

(** [a || b] *)
Definition orElse (a b : jsval) : jsval := if truthy a then a else b.

(** [v !== n] for a number literal [n] *)
Definition notIdenticalNum (v : jsval) (n : Z) : bool :=
  match v with
  | JNum z => negb (z =? n)%Z
  | _ => true
  end.

Section Builder.

Variable H : Host.

(** [config.prerequisites.dockerimage[key].uri]: reading [uri] from a
    missing image raises a [TypeError]. *)
Definition dockerImageUri (config : JobConfig) (key : jsstring)
  : Result Exn jsval :=
  match lookup key (dockerimage config) with
  | Some uri => Return uri
  | None =>
      if existsb (str_eqb key) objectPrototypeKeys
      then Return JUndefined
      else Throw TypeError
  end.

(** The completion policy of a task role (the "fill in completion policy"
    block of [generateTaskRole]). *)
Definition frameworkAttemptCompletionPolicy (role : TaskRoleConfig) : jsval :=
  match completion role with
  | Some c =>
      JObj [
        "minFailedTaskCount" :-
          match minFailedInstances c with
          | Some v => v
          | None => JNum 1
          end;
        "minSucceededTaskCount" :-
          match minSucceededInstances c with
          | Some v => v
          | None => JNum (-1)
          end ]
  | None =>
      JObj [
        "minFailedTaskCount" :- JNum 1;
        "minSucceededTaskCount" :- JNum (-1) ]
  end.

Definition limitsPath : list pathElem :=
  [Key "task"; Key "pod"; Key "spec"; Key "containers"; Idx 0;
   Key "resources"; Key "limits"].

Definition envPath : list pathElem :=
  [Key "task"; Key "pod"; Key "spec"; Key "containers"; Idx 0; Key "env"].

(** The hived part of [generateTaskRole], applied when
    [launcherConfig.enabledHived] is truthy; [podSchedulingSpec] is what
    [yaml.safeDump] returned for the [hivedPodSpec] of the task role. *)
Definition hivedSpec (podSchedulingSpec : jsval) (frameworkTaskRole : jsval)
  : jsval :=
  let t1 :=
    modifyAt [Key "task"; Key "pod"; Key "spec"]
      (assign "schedulerName" (scheduler (launcherConfig H)))
      frameworkTaskRole in
  let t2 := modifyAt limitsPath (delete "nvidia.com/gpu") t1 in
  let t3 :=
    modifyAt limitsPath
      (assign "hivedscheduler.microsoft.com/pod-scheduling-enable" (JNum 1))
      t2 in
  let t4 :=
    modifyAt [Key "task"; Key "pod"; Key "metadata"; Key "annotations"]
      (assign "hivedscheduler.microsoft.com/pod-scheduling-spec"
         podSchedulingSpec)
      t3 in
  modifyAt envPath
    (push [ JObj [
      "name" :- JStr (str "NVIDIA_VISIBLE_DEVICES");
      "valueFrom" :- JObj [
        "fieldRef" :- JObj [
          "fieldPath" :- JStr (str
            "metadata.annotations['hivedscheduler.microsoft.com/pod-gpu-isolation']")
        ] ] ] ])
    t4.

Definition generateTaskRole (taskRole : jsstring)
  (labels : list (jsstring * jsval)) (config : JobConfig)
  : Result Exn jsval :=
  match lookup taskRole (taskRoles config) with
  | None => Throw TypeError
  | Some role =>
    match dockerImageUri config (dockerImage role) with
    | Throw e => Throw e
    | Return uri =>
      let frameworkTaskRole := JObj [
        "name" :- JStr (convertName (unicodeLower H) taskRole);
        "taskNumber" :- orElse (instances role) (JNum 1);
        "task" :- JObj [
          "retryPolicy" :- JObj [
            "fancyRetryPolicy" :- JBool true;
            "maxRetryCount" :- JNum 0 ];
          "pod" :- JObj [
            "metadata" :- JObj [
              "labels" :-
                JObj (setField (str "type") (JStr (str "kube-launcher-task"))
                        labels);
              "annotations" :- JObj [
                "container.apparmor.security.beta.kubernetes.io/main" :-
                  JStr (str "unconfined") ] ];
            "spec" :- JObj [
              "privileged" :- JBool false;
              "restartPolicy" :- JStr (str "Never");
              "serviceAccountName" :- JStr (str "frameworkbarrier");
              "initContainers" :- JArr [
                JObj [
                  "name" :- JStr (str "init");
                  "imagePullPolicy" :- JStr (str "Always");
                  "image" :- runtimeImage (launcherConfig H);
                  "env" :- JArr [
                    JObj [ "name" :- JStr (str "USER_CMD");
                           "value" :- entrypoint role ];
                    JObj [ "name" :- JStr (str "KUBE_APISERVER_ADDRESS");
                           "value" :- apiServerUri (launcherConfig H) ] ];
                  "volumeMounts" :- JArr [
                    JObj [ "name" :- JStr (str "pai-vol");
                           "mountPath" :- JStr (str "/usr/local/pai") ];
                    JObj [ "name" :- JStr (str "host-log");
                           "mountPath" :- JStr (str "/usr/local/pai/logs") ] ]
                ] ];
              "containers" :- JArr [
                JObj [
                  "name" :- JStr (str "main");
                  "image" :- uri;
                  "command" :- JArr [ JStr (str "/usr/local/pai/run") ];
                  "resources" :- JObj [
                    "limits" :- JObj [
                      "cpu" :- cpu (resourcePerInstance role);
                      "memory" :-
                        JStr (toStringJs (memoryMB (resourcePerInstance role))
                                ++ str "Mi");
                      "nvidia.com/gpu" :- gpu (resourcePerInstance role) ] ];
                  "env" :- JArr [];
                  "securityContext" :- JObj [
                    "capabilities" :- JObj [
                      "add" :- JArr [ JStr (str "SYS_ADMIN");
                                      JStr (str "IPC_LOCK");
                                      JStr (str "DAC_READ_SEARCH") ];
                      "drop" :- JArr [ JStr (str "MKNOD") ] ] ];
                  "volumeMounts" :- JArr [
                    JObj [ "name" :- JStr (str "pai-vol");
                           "mountPath" :- JStr (str "/usr/local/pai") ];
                    JObj [ "name" :- JStr (str "host-log");
                           "mountPath" :- JStr (str "/usr/local/pai/logs") ];
                    JObj [ "name" :- JStr (str "job-ssh-secret-volume");
                           "readOnly" :- JBool true;
                           "mountPath" :-
                             JStr (str "/usr/local/pai/ssh-secret") ] ]
                ] ];
              "volumes" :- JArr [
                JObj [ "name" :- JStr (str "pai-vol");
                       "emptyDir" :- JObj [] ];
                JObj [ "name" :- JStr (str "host-log");
                       "hostPath" :- JObj [
                         "path" :-
                           JStr (str "/var/log/pai/"
                                   ++ toStringJs (getField (str "userName") labels)
                                   ++ str "/"
                                   ++ toStringJs (getField (str "jobName") labels)
                                   ++ str "/" ++ taskRole) ] ];
                JObj [ "name" :- JStr (str "job-ssh-secret-volume");
                       "secret" :- JObj [
                         "secretName" :- JStr (str "job-ssh-secret") ] ] ];
              "imagePullSecrets" :- JArr [
                JObj [ "name" :- runtimeImagePullSecrets (launcherConfig H) ] ];
              "hostNetwork" :- JBool true ] ] ] ] in
      (* fill in completion policy *)
      let frameworkTaskRole :=
        assign "frameworkAttemptCompletionPolicy"
          (frameworkAttemptCompletionPolicy role) frameworkTaskRole in
      (* hived spec: an exception of [yaml.safeDump] leaves the
         function *)
      if truthy (enabledHived (launcherConfig H)) then
        match safeDump H (hivedPodSpec role) with
        | Throw e => Throw e
        | Return podSchedulingSpec =>
            Return (hivedSpec podSchedulingSpec frameworkTaskRole)
        end
      else Return frameworkTaskRole
    end
  end.

Definition fieldRef (name path : string) : jsval :=
  JObj [ "name" :- JStr (str name);
         "valueFrom" :- JObj [
           "fieldRef" :- JObj [ "fieldPath" :- JStr (str path) ] ] ].

(** The entries pushed to the environment of the main container of the
    [i]-th task role. *)
Definition taskRoleEnv (envlist : list jsval) (i : nat) : list jsval :=
  envlist ++ [
    fieldRef "PAI_CURRENT_TASK_ROLE_NAME"
             "metadata.annotations['FC_TASKROLE_NAME']";
    fieldRef "PAI_CURRENT_TASK_ROLE_CURRENT_TASK_INDEX"
             "metadata.annotations['FC_TASK_INDEX']";
    (* backward compatibility *)
    fieldRef "PAI_TASK_INDEX" "metadata.annotations['FC_TASK_INDEX']";
    (* use random ports temporally *)
    JObj [ "name" :- JStr (str "PAI_CURRENT_CONTAINER_PORT");
           "value" :- JStr (decimal (randomPort H (2 * i))) ];
    JObj [ "name" :- JStr (str "PAI_CONTAINER_SSH_PORT");
           "value" :- JStr (decimal (randomPort H (2 * i + 1))) ] ].

(** The loop "fill in task roles": the descriptions pushed to
    [spec.taskRoles], or the exception of the first role that raises. *)
Fixpoint fillTaskRoles (labels : list (jsstring * jsval)) (config : JobConfig)
  (envlist : list jsval) (names : list jsstring) (i : nat)
  : Result Exn (list jsval) :=
  match names with
  | [] => Return []
  | taskRole :: rest =>
      match generateTaskRole taskRole labels config with
      | Throw e => Throw e
      | Return taskRoleDescription =>
          match fillTaskRoles labels config envlist rest (S i) with
          | Throw e => Throw e
          | Return ds =>
              Return (modifyAt envPath (push (taskRoleEnv envlist i))
                        taskRoleDescription :: ds)
          end
      end
  end.

Definition generateFrameworkDescription (frameworkName : jsstring)
  (virtualCluster : jsval) (config : JobConfig) (rawConfig : jsval)
  : Result Exn jsval :=
  let parts := split_tilde_group frameworkName in
  let userName := index parts 0 in
  let jobName := index parts 1 in
  let frameworkLabels :=
    [ "jobName" :- jobName; "userName" :- userName;
      "virtualCluster" :- virtualCluster ] in
  let frameworkDescription := JObj [
    "apiVersion" :- apiVersion (launcherConfig H);
    "kind" :- JStr (str "Framework");
    "metadata" :- JObj [
      "name" :- JStr (encodeName (unicodeLower H) frameworkName);
      "labels" :- JObj frameworkLabels;
      "annotations" :- JObj [ "config" :- rawConfig ] ];
    "spec" :- JObj [
      "executionType" :- JStr (str "Start");
      "retryPolicy" :- JObj [
        "fancyRetryPolicy" :- JBool (notIdenticalNum (jobRetryCount config) (-2));
        "maxRetryCount" :- orElse (jobRetryCount config) (JNum 0) ];
      "taskRoles" :- JArr [] ] ] in
  (* generate runtime env *)
  let env := generateFrameworkEnv H frameworkName config in
  let envlist :=
    map (fun kv => JObj [ "name" :- JStr (fst kv);
                          "value" :- JStr (toStringJs (snd kv)) ]) env in
  (* fill in task roles *)
  match fillTaskRoles frameworkLabels config envlist
          (objectKeys (taskRoles config)) 0 with
  | Throw e => Throw e
  | Return ds =>
      Return (modifyAt [Key "spec"; Key "taskRoles"] (push ds)
                frameworkDescription)
  end.

End Builder.

(* ================================================================= *)
(** ** Asynchronous programs *)

(** An [async] function is a program that awaits calls of an external
    service: each call is fulfilled with a value or rejected with a reason,
    and the program ends by returning or throwing. *)
Section Programs.

Variables C X R E A : Type.

Inductive outcome : Type :=
| Fulfilled (x : X)
| Rejected (r : R).

Inductive prog : Type :=
| Done (r : Result E A)
| Await (c : C) (k : outcome -> prog).

(** The service answers a call from its state.  A run gives the calls made,
    in order, the result and the final state of the service. *)
Fixpoint run (S : Type) (h : C -> S -> outcome * S) (p : prog) (s : S)
  : list C * Result E A * S :=
  match p with
  | Done r => ([], r, s)
  | Await c k =>
      let (o, s') := h c s in
      let '(calls, r, s'') := run h (k o) s' in
      (c :: calls, r, s'')
  end.

End Programs.

Arguments Fulfilled {X R} x.
Arguments Rejected {X R} r.
Arguments Done {C X R E A} r.
Arguments Await {C X R E A} c k.

(** [await p; rest] and [try { p } catch (error) { handler }] *)
Fixpoint andThen (C X R E A B : Type) (p : prog C X R E A)
  (rest : A -> prog C X R E B) : prog C X R E B :=
  match p with
  | Done (Return a) => rest a
  | Done (Throw e) => Done (Throw e)
  | Await c k => Await c (fun o => andThen (k o) rest)
  end.

Fixpoint tryCatch (C X R E A : Type) (p : prog C X R E A)
  (handler : E -> prog C X R E A) : prog C X R E A :=
  match p with
  | Done (Return a) => Done (Return a)
  | Done (Throw e) => handler e
  | Await c k => Await c (fun o => tryCatch (k o) handler)
  end.

(* ================================================================= *)
(** ** Requests to the framework controller *)

Record Request : Type := {
  method : jsstring;
  url : jsstring;
  headers : jsval;
  data : jsval
}.

(** [response.data.message] *)
Definition data_message (d : ResponseData) : jsval :=
  match d with
  | StatusBody message => message
  | FrameworkBody _ => JUndefined
  | FrameworkListBody _ => JUndefined
  end.

(** [Array.prototype.sort] with the comparison function
    [(a, b) => b.createdTime - a.createdTime]. *)
Definition minus (a b : jsval) : jsval :=
  match a, b with
  | JNum x, JNum y => JNum (x - y)
  | _, _ => JNaN
  end.

Definition comparefn (a b : jsval) : jsval :=
  minus (get "createdTime" b) (get "createdTime" a).

(** The sort inserts each element in the sorted rest, before the first
    element it does not have to follow: an element follows another when
    the comparison function is positive on them; a comparison that is
    [NaN] counts as zero.  The sort is stable. *)
Definition follows (a b : jsval) : bool :=
  match comparefn a b with
  | JNum v => (0 <? v)%Z
  | _ => false
  end.

Fixpoint insertSorted (x : jsval) (l : list jsval) : list jsval :=
  match l with
  | [] => [x]
  | y :: l' => if follows x y then y :: insertSorted x l' else x :: y :: l'
  end.

Fixpoint sort (l : list jsval) : list jsval :=
  match l with
  | [] => []
  | x :: l' => insertSorted x (sort l')
  end.

Definition Client (A : Type) : Type :=
  prog Request Response AxiosError Exn A.

(** The block every operation starts with: the request is sent, and a
    rejection that carries a response is treated as that response. *)
Definition axios (A : Type) (request : Request) (k : Response -> Client A)
  : Client A :=
  Await request (fun o =>
    match o with
    | Fulfilled response => k response
    | Rejected error =>
        match ae_response error with
        | Some response => k response
        | None => Done (Throw (TransportError error))
        end
    end).

Module Framework.

Section Operations.

Variable H : Host.

(** [throw createError(status, code, message)] *)
Definition throwError (status : jsval) (code : string) (message : jsval)
  : Client jsval :=
  Done (Throw (Thrown (createError H status (str code) message))).

(** A body that is not a framework has no [status.attemptStatus]: the
    conversion of it raises a [TypeError]. *)
Definition get (frameworkName : jsstring) : Client jsval :=
  axios {| method := str "get";
           url := frameworkPath (launcherConfig H)
                    (encodeName (unicodeLower H) frameworkName);
           headers := requestHeaders (launcherConfig H);
           data := JUndefined |}
    (fun response =>
       if (rs_status response =? status_OK)%Z then
         match rs_data response with
         | FrameworkBody fw => Done (Return (convertFrameworkDetail H fw))
         | _ => Done (Throw TypeError)
         end
       else if (rs_status response =? status_NotFound)%Z then
         throwError (JStr (str "Not Found")) "NoJobError"
                        (JStr (str "Job " ++ frameworkName
                                 ++ str " is not found."))
       else
         throwError (JNum (rs_status response)) "UnknownError"
                        (data_message (rs_data response))).

Definition put (frameworkName : jsstring) (config : JobConfig)
  (rawConfig : jsval) : Client jsval :=
  let virtualCluster :=
    match defaults_virtualCluster config with
    | Some JNull | Some JUndefined | None => JStr (str "default")
    | Some vc => vc
    end in
  match generateFrameworkDescription H frameworkName virtualCluster config
          rawConfig with
  | Throw e => Done (Throw e)
  | Return frameworkDescription =>
      axios {| method := str "post";
               url := frameworksPath (launcherConfig H);
               headers := requestHeaders (launcherConfig H);
               data := frameworkDescription |}
        (fun response =>
           if negb (rs_status response =? status_Created)%Z then
             throwError (JNum (rs_status response))
                            "UnknownError"
                            (data_message (rs_data response))
           else Done (Return JUndefined))
  end.

(** The value sent as [spec.executionType]. *)
Definition executionTypeSent (executionType : jsstring) : jsstring :=
  charAt0 executionType
    ++ toLowerCase (unicodeLower H) (slice1 executionType).

Definition execute (frameworkName executionType : jsstring) : Client jsval :=
  axios {| method := str "patch";
           url := frameworkPath (launcherConfig H)
                    (encodeName (unicodeLower H) frameworkName);
           headers :=
             JObj [ "Content-Type" :-
                      JStr (str "application/merge-patch+json") ];
           data :=
             JObj [ "spec" :- JObj [
               "executionType" :- JStr (executionTypeSent executionType) ] ] |}
    (fun response =>
       if negb (rs_status response =? status_OK)%Z then
         throwError (JNum (rs_status response)) "UnknownError"
                        (data_message (rs_data response))
       else Done (Return JUndefined)).

(** [response.data.metadata.annotations && ....config]: the stored text,
    when there is one and it is not empty.  A body that is not a framework
    (a status or a list object) has metadata without annotations. *)
Definition storedConfig (d : ResponseData) : option jsstring :=
  match d with
  | FrameworkBody fw =>
      match annotations (metadata fw) with
      | Some an =>
          match an_config an with
          | Some text => if truthy (JStr text) then Some text else None
          | None => None
          end
      | None => None
      end
  | _ => None
  end.

Definition getConfig (frameworkName : jsstring) : Client jsval :=
  axios {| method := str "get";
           url := frameworkPath (launcherConfig H)
                    (encodeName (unicodeLower H) frameworkName);
           headers := requestHeaders (launcherConfig H);
           data := JUndefined |}
    (fun response =>
       if (rs_status response =? status_OK)%Z then
         match storedConfig (rs_data response) with
         | Some text => Done (safeLoad H text)
         | None =>
             throwError (JStr (str "Not Found"))
                            "NoJobConfigError"
                            (JStr (str "Config of job " ++ frameworkName
                                     ++ str " is not found."))
         end
       else if (rs_status response =? status_NotFound)%Z then
         throwError (JStr (str "Not Found")) "NoJobError"
                        (JStr (str "Job " ++ frameworkName
                                 ++ str " is not found."))
       else
         throwError (JNum (rs_status response)) "UnknownError"
                        (data_message (rs_data response))).

Definition getSshInfo (frameworkName : jsstring) : Client jsval :=
  throwError (JStr (str "Not Found")) "NoJobSshInfoError"
                 (JStr (str "SSH info of job " ++ frameworkName
                          ++ str " is not found.")).

(** A body without [items] makes [response.data.items.map] raise a
    [TypeError]. *)
Definition list : Client jsval :=
  axios {| method := str "get";
           url := frameworksPath (launcherConfig H);
           headers := requestHeaders (launcherConfig H);
           data := JUndefined |}
    (fun response =>
       if (rs_status response =? status_OK)%Z then
         match rs_data response with
         | FrameworkListBody items =>
             let frameworkList := map (convertFrameworkSummary H) items in
             Done (Return (JArr (sort frameworkList)))
         | _ => Done (Throw TypeError)
         end
       else
         throwError (JNum (rs_status response)) "UnknownError"
                        (data_message (rs_data response))).

End Operations.

End Framework.

(* ================================================================= *)
(** ** User model *)

Module User.

(** The error object the storage engine rejects with. *)
Record StoreError : Type := {
  se_status : jsval;
  se_detail : jsval
}.

(** The calls of [crudUser]; each also receives [crudConfig]. *)
Inductive CrudCall : Type :=
| Read (username crudConfig : jsval)
| ReadAll (crudConfig : jsval)
| Create (username value crudConfig : jsval)
| Update (username value crudConfig updatePassword : jsval)
| Remove (username crudConfig : jsval).

Definition Store (A : Type) : Type :=
  prog CrudCall jsval StoreError StoreError A.

(** [try { return await call } catch (error) { throw error }] *)
Definition crud (c : CrudCall) : Store jsval :=
  Await c (fun o =>
    match o with
    | Fulfilled v => Done (Return v)
    | Rejected error => Done (Throw error)
    end).

(** [v === n] for a number literal [n] *)
Definition identicalNum (v : jsval) (n : Z) : bool :=
  match v with
  | JNum z => (z =? n)%Z
  | _ => false
  end.

Section Operations.

Variable crudConfig : jsval.

Definition getUser (username : jsval) : Store jsval :=
  crud (Read username crudConfig).

Definition getAllUser : Store jsval :=
  crud (ReadAll crudConfig).

Definition createUser (username value : jsval) : Store jsval :=
  crud (Create username value crudConfig).

(** A parameter with a default takes it when the argument is missing or
    [undefined]. *)
Definition withDefault (default argument : jsval) : jsval :=
  match argument with
  | JUndefined => default
  | _ => argument
  end.

Definition updateUser (username value updatePassword : jsval) : Store jsval :=
  let updatePassword := withDefault (JBool false) updatePassword in
  crud (Update username value crudConfig updatePassword).

Definition deleteUser (username : jsval) : Store jsval :=
  crud (Remove username crudConfig).

Definition createUserIfNonExistent (username userValue : jsval)
  : Store jsval :=
  tryCatch
    (andThen (getUser username) (fun _ => Done (Return JUndefined)))
    (fun error =>
       if identicalNum (se_status error) 404
       then andThen (createUser username userValue)
              (fun _ => Done (Return JUndefined))
       else Done (Throw error)).

End Operations.

End User.

(* ================================================================= *)
(** ** A host for examples *)

(** A host whose engine leaves units outside Basic Latin unchanged, reads a
    date as the decimal number of milliseconds it is written as, and whose
    YAML library loads an empty document as [undefined] and any other text
    as a string. *)
Definition readDigits (s : jsstring) : option Z :=
  match s with
  | [] => None
  | _ =>
      fold_left
        (fun acc c =>
           match acc with
           | Some z =>
               if ((48 <=? c) && (c <=? 57))%N
               then Some (10 * z + Z.of_N (c - 48))%Z
               else None
           | None => None
           end)
        s (Some 0%Z)
  end.

Definition exampleLauncher : LauncherConfig := {|
  runtimeImage := JStr (str "openpai/kube-runtime");
  apiServerUri := JStr (str "http://apiserver:8080");
  runtimeImagePullSecrets := JStr (str "regcred");
  enabledHived := JBool false;
  scheduler := JStr (str "hivedscheduler");
  apiVersion := JStr (str "frameworkcontroller.microsoft.com/v1");
  requestHeaders :=
    JObj [ "Accept" :- JStr (str "application/json") ];
  frameworksPath := str "/frameworks";
  frameworkPath := fun name => str "/frameworks/" ++ name
|}.

Definition exampleHost : Host := {|
  unicodeLower := fun s => s;
  unicodeUpper := fun s => s;
  dateParse := readDigits;
  safeDump := fun v =>
    match v with
    | JUndefined => Throw (Thrown (JStr (str "YAMLException")))
    | _ => Return v
    end;
  safeLoad := fun text =>
    match text with
    | [] => Return JUndefined
    | _ => Return (JStr text)
    end;
  createError := fun status code message =>
    JObj [ "status" :- status; "code" :- JStr code; "message" :- message ];
  launcherConfig := exampleLauncher;
  generateFrameworkEnv := fun _ _ => [];
  randomPort := fun k => (10000 + Z.of_nat k)%Z;
  inexactMinus := fun x y => JNum (x - y)%Z
|}.

(* ================================================================= *)
(** ** Vocabulary of the properties *)

(** The job states and the controller states the mapper knows. *)
Definition jobStates : list jsstring :=
  map str ["WAITING"; "RUNNING"; "SUCCEEDED"; "FAILED"; "UNKNOWN"]%string.

Definition knownStates : list jsstring :=
  map str ["AttemptCreationPending"; "AttemptCreationRequested";
           "AttemptPreparing"; "AttemptRunning"; "AttemptDeletionPending";
           "AttemptDeletionRequested"; "AttemptDeleting"; "AttemptCompleted";
           "Completed"]%string.

(** A byte that the [ascii] decoding does not turn into the separator. *)
Definition plainByte (b : N) : Prop :=
  (b < 256)%N /\ N.land b 127 <> tilde.

(** A unit of a job name the codec gives back: Basic Latin and not a line
    terminator. *)
Definition plainUnit (c : N) : Prop :=
  (c < 128)%N /\ isLineTerminator c = false.

Definition orDefault (v : option jsval) (d : jsval) : jsval :=
  match v with
  | Some x => x
  | None => d
  end.

(** Every task role names a docker image the configuration declares. *)
Definition imagesDeclared (config : JobConfig) : Prop :=
  Forall (fun role => exists uri,
            dockerImageUri config (dockerImage role) = Return uri)
         (map snd (taskRoles config)).

(** [yaml.safeDump] writes the [hivedPodSpec] of the task role, where the
    hived scheduler is enabled and the pod specification is dumped. *)
Definition podSpecDumps (H : Host) (role : TaskRoleConfig) : Prop :=
  truthy (enabledHived (launcherConfig H)) = true ->
  exists podSchedulingSpec,
    safeDump H (hivedPodSpec role) = Return podSchedulingSpec.

Definition podSpecsDump (H : Host) (config : JobConfig) : Prop :=
  Forall (podSpecDumps H) (map snd (taskRoles config)).

(** The response an operation sees: the one the call is fulfilled with, or
    the one its rejection carries. *)
Definition delivered (o : outcome Response AxiosError) : option Response :=
  match o with
  | Fulfilled response => Some response
  | Rejected error => ae_response error
  end.

Definition listRequest (H : Host) : Request :=
  {| method := str "get";
     url := frameworksPath (launcherConfig H);
     headers := requestHeaders (launcherConfig H);
     data := JUndefined |}.

Definition frameworkRequest (H : Host) (frameworkName : jsstring) : Request :=
  {| method := str "get";
     url := frameworkPath (launcherConfig H)
              (encodeName (unicodeLower H) frameworkName);
     headers := requestHeaders (launcherConfig H);
     data := JUndefined |}.

(** A merge patch whose body has [spec.executionType] and nothing else. *)
Definition patchRequest (H : Host) (frameworkName value : jsstring) : Request :=
  {| method := str "patch";
     url := frameworkPath (launcherConfig H)
              (encodeName (unicodeLower H) frameworkName);
     headers :=
       JObj [ "Content-Type" :- JStr (str "application/merge-patch+json") ];
     data := JObj [ "spec" :- JObj [ "executionType" :- JStr value ] ] |}.

(** The specification's wording of the execution type sent: first letter
    capitalized, the rest lower-cased. *)
Definition capitalized (H : Host) (s : jsstring) : jsstring :=
  toUpperCase (unicodeUpper H) (charAt0 s)
    ++ toLowerCase (unicodeLower H) (slice1 s).

(** [a.createdTime >= b.createdTime] *)
Definition createdNoLater (a b : jsval) : bool :=
  match get "createdTime" a, get "createdTime" b with
  | JNum x, JNum y => (y <=? x)%Z
  | _, _ => false
  end.

(** Every earlier element is created no earlier than every later one. *)
Definition descending (l : list jsval) : Prop :=
  StronglySorted (fun a b => createdNoLater a b = true) l.

Definition timed (v : jsval) : Prop :=
  exists t, get "createdTime" v = JNum t.

(** The start time of the framework is a date the engine can read. *)
Definition validStart (H : Host) (fw : Framework) : Prop :=
  exists t, newDateGetTime H (startTime (status fw)) = JNum t.

(* ================================================================= *)
(** ** Example data *)

Definition exampleFramework (name : jsstring) (start : timeField)
  (config : option jsstring) : Framework := {|
  metadata := {|
    md_name := name;
    labels := Some {| lb_userName := JStr (str "user");
                      lb_virtualCluster := JStr (str "default") |};
    annotations := Some {| an_config := config |} |};
  spec := {| executionType := str "Start" |};
  status := {|
    state := str "AttemptRunning";
    startTime := start;
    completionTime := TimeNull;
    retryPolicyStatus := {| totalRetriedCount := 0;
                            accountableRetriedCount := 0 |};
    attemptStatus := {| completionStatus := None;
                        instanceUID := JStr (str "0_abc");
                        taskRoleStatuses := [] |} |}
|}.

Definition exampleRole (policy : option Completion) : TaskRoleConfig := {|
  instances := JNum 3;
  entrypoint := JStr (str "python train.py");
  dockerImage := str "image";
  resourcePerInstance := {| cpu := JNum 4; memoryMB := JNum 8192;
                            gpu := JNum 1 |};
  completion := policy;
  hivedPodSpec := JUndefined
|}.

Definition exampleConfig (retries : jsval) (policy : option Completion)
  : JobConfig := {|
  jobRetryCount := retries;
  taskRoles := [ (str "worker", exampleRole policy) ];
  dockerimage := [ (str "image", JStr (str "openpai/pytorch")) ];
  defaults_virtualCluster := None
|}.

(** A controller that answers every request with the same outcome, and a
    user store that rejects reads and fulfils every other call. *)
Definition answering (o : outcome Response AxiosError)
  : Request -> unit -> outcome Response AxiosError * unit :=
  fun _ s => (o, s).

Definition rejectedWith (code : Z) (message : string)
  : outcome Response AxiosError :=
  Rejected {| ae_response :=
                Some {| rs_status := code;
                        rs_data := StatusBody (JStr (str message)) |};
              ae_cause := JStr (str "Request failed") |}.

Definition storeRejectingReads (error : User.StoreError)
  : User.CrudCall -> nat -> outcome jsval User.StoreError * nat :=
  fun c n =>
    match c with
    | User.Read _ _ => (Rejected error, n)
    | _ => (Fulfilled JUndefined, S n)
    end.

Definition storeWithUser (user : jsval)
  : User.CrudCall -> nat -> outcome jsval User.StoreError * nat :=
  fun c n =>
    match c with
    | User.Read _ _ => (Fulfilled user, n)
    | _ => (Fulfilled JUndefined, S n)
    end.

Definition exampleNotFound : User.StoreError :=
  {| User.se_status := JNum 404; User.se_detail := JStr (str "Not Found") |}.

Definition exampleForbidden : User.StoreError :=
  {| User.se_status := JNum 403; User.se_detail := JStr (str "Forbidden") |}.

Definition threeFrameworks : list Framework :=
  [ exampleFramework (str "a") (TimeString (str "2000")) None;
    exampleFramework (str "b") (TimeString (str "1000")) None;
    exampleFramework (str "c") (TimeString (str "3000")) None ].


(* ================================================================= *)
(** ** Reading built objects *)

(** [v.p1.p2...pn] along a path of keys and indices, [undefined] where the
    path leaves the value. *)
Fixpoint getPath (path : list pathElem) (v : jsval) : jsval :=
  match path with
  | [] => v
  | Key k :: p => getPath p (get k v)
  | Idx n :: p =>
      match v with
      | JArr l =>
          match nth_error l n with
          | Some x => getPath p x
          | None => JUndefined
          end
      | _ => JUndefined
      end
  end.

(** [k in v] for an object given by its fields. *)
Definition hasField (k : string) (v : jsval) : bool :=
  match v with
  | JObj fs => existsb (fun kv => str_eqb (str k) (fst kv)) fs
  | _ => false
  end.

(** The elements of an array. *)
Definition elements (v : jsval) : list jsval :=
  match v with
  | JArr l => l
  | _ => []
  end.

(** The request [put] sends for a description. *)
Definition postRequest (H : Host) (frameworkDescription : jsval) : Request :=
  {| method := str "post";
     url := frameworksPath (launcherConfig H);
     headers := requestHeaders (launcherConfig H);
     data := frameworkDescription |}.

(** The virtual cluster [put] builds the description with. *)
Definition virtualClusterOf (config : JobConfig) : jsval :=
  match defaults_virtualCluster config with
  | Some JNull | Some JUndefined | None => JStr (str "default")
  | Some vc => vc
  end.

(** The entry of [detail.taskRoles] for a task role status. *)
Definition taskRoleEntry (taskRoleStatus : TaskRoleStatus) : jsval :=
  JObj [
    "taskRoleStatus" :- JObj [ "name" :- JStr (trs_name taskRoleStatus) ];
    "taskStatuses" :-
      JArr (map convertTaskDetail (taskStatuses taskRoleStatus)) ].

(** Letters of Basic Latin in upper case. *)
Definition isUpperLatin (c : N) : bool := ((65 <=? c) && (c <=? 90))%N.

(* ================================================================= *)
(** ** User model: membership checks *)

Module UserAccess.

(** What the checks read of a user: [userInfo.grouplist] and
    [userInfo.extension.virtualCluster]. *)
Record UserInfo : Type := {
  grouplist : list jsstring;
  virtualCluster : list jsstring
}.

Definition Check (A : Type) : Type :=
  prog User.CrudCall UserInfo User.StoreError User.StoreError A.

(** [list.includes(name)] *)
Definition includes (l : list jsstring) (name : jsstring) : bool :=
  existsb (str_eqb name) l.

Section Checks.

Variable crudConfig : jsval.

(** [authConfig.groupConfig.adminGroup.groupname] *)
Variable adminGroup : jsstring.

Definition checkUserGroup (username : jsval) (groupname : jsstring)
  : Check bool :=
  Await (User.Read username crudConfig) (fun o =>
    match o with
    | Fulfilled userInfo =>
        let ret := false in
        Done (Return
          (if includes (grouplist userInfo) groupname then true
           else if includes (grouplist userInfo) adminGroup
                (* admin has the permission of all groups. *)
                then true
                else ret))
    | Rejected error => Done (Throw error)
    end).

Definition checkUserVC (username : jsval) (vcName : jsstring) : Check bool :=
  Await (User.Read username crudConfig) (fun o =>
    match o with
    | Fulfilled userInfo =>
        let ret := false in
        Done (Return
          (if includes (virtualCluster userInfo) vcName then true
           else if includes (grouplist userInfo) adminGroup then true
                else ret))
    | Rejected error => Done (Throw error)
    end).

End Checks.

End UserAccess.

(** A store that answers every read with the same user. *)
Definition storeOfUser (user : UserAccess.UserInfo)
  : User.CrudCall -> nat -> outcome UserAccess.UserInfo User.StoreError * nat :=
  fun _ n => (Fulfilled user, n).

Definition exampleUser : UserAccess.UserInfo :=
  {| UserAccess.grouplist := [ str "dev"; str "admingroup" ];
     UserAccess.virtualCluster := [ str "default" ] |}.

(* ================================================================= *)
(** ** Vocabulary of the further properties *)

(** The controller states reported as [WAITING]. *)
Definition waitingStates : list jsstring :=
  map str ["AttemptCreationPending"; "AttemptCreationRequested";
           "AttemptPreparing"; "AttemptDeletionPending";
           "AttemptDeletionRequested"; "AttemptDeleting";
           "AttemptCompleted"]%string.

(** A role without instances to run, and a configuration with it. *)
Definition idleRole : TaskRoleConfig := {|
  instances := JNum 0;
  entrypoint := JUndefined;
  dockerImage := str "image";
  resourcePerInstance := {| cpu := JNum 1; memoryMB := JNum 1; gpu := JNum 0 |};
  completion := None;
  hivedPodSpec := JUndefined
|}.

Definition idleConfig : JobConfig := {|
  jobRetryCount := JNum 5;
  taskRoles := [ (str "Worker_1", idleRole) ];
  dockerimage := [ (str "image", JStr (str "ubuntu")) ];
  defaults_virtualCluster := None
|}.


(** The fields a summary and the job status of a detail have in common. *)
Definition sharedFields : list string :=
  [ "username"; "state"; "subState"; "executionType"; "retries";
    "retryDetails"; "createdTime"; "completedTime"; "appExitCode";
    "virtualCluster" ]%string.

(** One step of the loop of [convertFrameworkDetail] over the task role
    statuses, for a change [step] of the fields of [detail.taskRoles]. *)
Definition assignRole
  (step : TaskRoleStatus -> list (jsstring * jsval) -> list (jsstring * jsval))
  (detail : jsval) (taskRoleStatus : TaskRoleStatus) : jsval :=
  modifyAt [Key "taskRoles"]
    (fun roles =>
       match roles with
       | JObj fs => JObj (step taskRoleStatus fs)
       | _ => roles
       end)
    detail.

(** [detail.taskRoles[taskRoleStatus.name] = ...] *)
Definition setRole (taskRoleStatus : TaskRoleStatus)
  (fs : list (jsstring * jsval)) : list (jsstring * jsval) :=
  assignOwn (trs_name taskRoleStatus) (taskRoleEntry taskRoleStatus) fs.

Definition exampleTask (i : Z) : TaskStatus := {|
  ts_index := JNum i;
  ts_state := str "AttemptRunning";
  ts_attemptStatus := {| podName := JStr (str "pod");
                         podHostIP := JStr (str "10.0.0.1");
                         ta_completionStatus := None |}
|}.

Definition workerStatus : TaskRoleStatus :=
  {| trs_name := str "worker";
     taskStatuses := [ exampleTask 0; exampleTask 1 ] |}.

Definition masterStatus : TaskRoleStatus :=
  {| trs_name := str "master"; taskStatuses := [ exampleTask 0 ] |}.

(** A running framework with two task roles. *)
Definition twoRoleFramework : Framework := {|
  metadata := {| md_name := str "hex616c6963657e6a6f62";
                 labels := None; annotations := None |};
  spec := {| executionType := str "Start" |};
  status := {|
    state := str "AttemptRunning";
    startTime := TimeString (str "1000");
    completionTime := TimeNull;
    retryPolicyStatus := {| totalRetriedCount := 3;
                            accountableRetriedCount := 1 |};
    attemptStatus := {| completionStatus := None;
                        instanceUID := JStr (str "0_abc");
                        taskRoleStatuses := [ masterStatus; workerStatus ] |} |}
|}.

(** A completed framework whose completion status is missing. *)
Definition lostFramework : Framework := {|
  metadata := {| md_name := str "hex616c6963657e6a6f62";
                 labels := None; annotations := None |};
  spec := {| executionType := str "Start" |};
  status := {|
    state := str "Completed";
    startTime := TimeString (str "1000");
    completionTime := TimeString (str "2000");
    retryPolicyStatus := {| totalRetriedCount := 0;
                            accountableRetriedCount := 0 |};
    attemptStatus := {| completionStatus := None;
                        instanceUID := JStr (str "0_abc");
                        taskRoleStatuses := [] |} |}
|}.

(** A rejection without response, and a configuration whose task role
    names an image that is not declared. *)
Definition networkDown : AxiosError :=
  {| ae_response := None; ae_cause := JStr (str "ECONNREFUSED") |}.

Definition danglingConfig : JobConfig := {|
  jobRetryCount := JNum 0;
  taskRoles := [ (str "worker", exampleRole None) ];
  dockerimage := [];
  defaults_virtualCluster := None
|}.

(* ================================================================= *)
(** * Properties *)

Unset Implicit Arguments.

(** Linear arithmetic with division and remainder by constants. *)
Ltac nlia := zify; Z.to_euclidean_division_equations; lia.

(** Bounds and tests on concrete units. *)
Ltac units := repeat constructor; vm_compute; try reflexivity; discriminate.

(* ----------------------------------------------------------------- *)
(** ** Strings and objects *)

Section Strings.

Local Open Scope N_scope.

Lemma str_eqb_eq (a b : jsstring) : str_eqb a b = true <-> a = b.
Proof.
  revert b; induction a as [|c a IH]; intros [|d b]; simpl; split; intro E;
    try reflexivity; try discriminate.
  - apply andb_true_iff in E as [E1 E2]. apply N.eqb_eq in E1.
    apply IH in E2. congruence.
  - injection E as -> ->. rewrite N.eqb_refl. simpl. now apply IH.
Qed.

Lemma str_eqb_refl (a : jsstring) : str_eqb a a = true.
Proof. now apply str_eqb_eq. Qed.

Lemma startsWith_app (p s : jsstring) : startsWith (p ++ s) p = true.
Proof.
  induction p as [|c p IH]; simpl; [reflexivity|]. now rewrite N.eqb_refl.
Qed.

Lemma includes_tilde (u r : jsstring) :
  includes (u ++ tilde :: r) (str "~") = true.
Proof.
  induction u as [|c u IH]; simpl.
  - reflexivity.
  - rewrite IH. apply orb_true_r.
Qed.

Lemma land_127 (b : N) : N.land b 127 = b mod 128.
Proof. change 127 with (N.ones 7). now rewrite N.land_ones. Qed.

Lemma splitTilde_group (job acc : jsstring) :
  Forall (fun c => isLineTerminator c = false) job ->
  splitTilde true acc job = [rev acc ++ job; []].
Proof.
  intro Hj. revert acc.
  induction Hj as [|c job Hc _ IH]; intro acc; cbn [splitTilde].
  - now rewrite app_nil_r.
  - rewrite Hc, IH. cbn [rev]. now rewrite <- app_assoc.
Qed.

Lemma splitTilde_first (pre job acc : jsstring) :
  ~ In tilde pre -> job <> [] ->
  Forall (fun c => isLineTerminator c = false) job ->
  splitTilde false acc (pre ++ tilde :: job) = [rev acc ++ pre; job; []].
Proof.
  intros Hp Hne Hj. revert acc.
  induction pre as [|c pre IH]; intro acc; cbn [app splitTilde].
  - rewrite N.eqb_refl.
    destruct job as [|d job]; [congruence|].
    inversion Hj as [|? ? Hd Hj']; subst.
    cbn [startsDot]. rewrite Hd. cbn [negb andb].
    rewrite (splitTilde_group (d :: job) [] Hj). now rewrite app_nil_r.
  - assert (Hc : (c =? tilde) = false)
      by (apply N.eqb_neq; intro; apply Hp; left; congruence).
    rewrite Hc. cbn [andb]. rewrite IH by (intro; apply Hp; now right).
    cbn [rev]. now rewrite <- app_assoc.
Qed.

End Strings.

Section Objects.

Lemma getField_setField_other (k k' : jsstring) (x : jsval)
  (fs : list (jsstring * jsval)) :
  str_eqb k k' = false -> getField k (setField k' x fs) = getField k fs.
Proof.
  intro Hd. induction fs as [|[k0 v0] fs IH]; cbn [setField getField].
  - now rewrite Hd.
  - destruct (str_eqb k' k0) eqn:E; cbn [getField].
    + apply str_eqb_eq in E. subst k0. now rewrite Hd.
    + now rewrite IH.
Qed.

Lemma getField_setField_same (k : jsstring) (x : jsval)
  (fs : list (jsstring * jsval)) :
  getField k (setField k x fs) = x.
Proof.
  induction fs as [|[k0 v0] fs IH]; cbn [setField getField].
  - now rewrite str_eqb_refl.
  - destruct (str_eqb k k0) eqn:E; cbn [getField].
    + now rewrite str_eqb_refl.
    + now rewrite E.
Qed.

Lemma get_modifyAt_other (k k' : string) (p : list pathElem)
  (f : jsval -> jsval) (v : jsval) :
  str_eqb (str k) (str k') = false ->
  get k (modifyAt (Key k' :: p) f v) = get k v.
Proof.
  intro Hd. destruct v; try reflexivity.
  cbn [modifyAt get]. now apply getField_setField_other.
Qed.

Lemma get_modifyAt_same (k : string) (p : list pathElem)
  (f : jsval -> jsval) (fs : list (jsstring * jsval)) :
  get k (modifyAt (Key k :: p) f (JObj fs))
  = modifyAt p f (getField (str k) fs).
Proof. cbn [modifyAt get]. apply getField_setField_same. Qed.

Lemma lookup_key (A : Type) (name : jsstring) (l : list (jsstring * A)) :
  In name (map fst l) -> exists v, lookup name l = Some v /\ In v (map snd l).
Proof.
  induction l as [|[k v] l IH]; cbn [map In lookup fst snd]; [tauto|].
  intros Hin. destruct (str_eqb name k) eqn:E.
  - exists v. auto.
  - destruct Hin as [Hk|Hin].
    + subst k. now rewrite str_eqb_refl in E.
    + destruct (IH Hin) as (v' & Hv & Hi). exists v'. auto.
Qed.

Lemma insertIndex_perm (v : N) (k : jsstring) (l : list (N * jsstring)) :
  Permutation ((v, k) :: l) (insertIndex v k l).
Proof.
  induction l as [|[w k'] l IH]; cbn [insertIndex]; [reflexivity|].
  destruct (v <? w)%N; [reflexivity|].
  rewrite perm_swap. now constructor.
Qed.

Lemma indexKeys_perm (keys : list jsstring) :
  Permutation (map snd (indexKeys keys))
    (filter (fun k => negb (isName k)) keys).
Proof.
  induction keys as [|k keys IH]; cbn [indexKeys filter]; [reflexivity|].
  unfold isName at 1. destruct (arrayIndex k) as [v|]; cbn [negb].
  - rewrite <- insertIndex_perm. cbn [map snd]. now constructor.
  - exact IH.
Qed.

Lemma filter_split_perm (A : Type) (f : A -> bool) (l : list A) :
  Permutation (filter (fun x => negb (f x)) l ++ filter f l) l.
Proof.
  induction l as [|x l IH]; cbn [filter]; [reflexivity|].
  destruct (f x); cbn [negb app].
  - rewrite <- Permutation_middle. now constructor.
  - now constructor.
Qed.

(** [Object.keys] lists every key once. *)
Lemma objectKeys_perm (A : Type) (fs : list (jsstring * A)) :
  Permutation (objectKeys fs) (map fst fs).
Proof.
  unfold objectKeys. rewrite indexKeys_perm. apply filter_split_perm.
Qed.

Lemma objectKeys_In (A : Type) (fs : list (jsstring * A)) (k : jsstring) :
  In k (objectKeys fs) -> In k (map fst fs).
Proof. apply Permutation_in, objectKeys_perm. Qed.

(** Names that are no array indices are listed in insertion order. *)
Lemma objectKeys_names (A : Type) (fs : list (jsstring * A)) :
  Forall (fun k => arrayIndex k = None) (map fst fs) ->
  objectKeys fs = map fst fs.
Proof.
  unfold objectKeys. induction (map fst fs) as [|k keys IH];
    intro Hall; [reflexivity|].
  inversion Hall as [|? ? Hk Hrest]; subst.
  cbn [indexKeys filter]. unfold isName at 1. rewrite Hk.
  specialize (IH Hrest).
  assert (E : indexKeys keys = []).
  { clear IH Hall. induction Hrest as [|k' keys' Hk' _ IH'];
      [reflexivity|]. cbn [indexKeys]. now rewrite Hk'. }
  rewrite E in *. cbn [map app] in *. now rewrite IH.
Qed.

End Objects.

(* ----------------------------------------------------------------- *)
(** ** Buffers *)

Section Buffers.

Local Open Scope N_scope.

Lemma unhex_hexDigit (d : N) :
  Buffer.unhex (Buffer.hexDigit d) = Some (d mod 16).
Proof.
  unfold Buffer.hexDigit, Buffer.unhex.
  assert (Hd : d mod 16 < 16) by (apply N.mod_lt; discriminate).
  set (e := d mod 16) in *. clearbody e.
  destruct (N.ltb_spec e 10).
  - replace ((48 <=? 48 + e) && (48 + e <=? 57)) with true.
    + f_equal. lia.
    + symmetry. apply andb_true_iff. split; apply N.leb_le; lia.
  - replace ((48 <=? 87 + e) && (87 + e <=? 57)) with false.
    + replace ((97 <=? 87 + e) && (87 + e <=? 102)) with true.
      * f_equal. lia.
      * symmetry. apply andb_true_iff. split; apply N.leb_le; lia.
    + symmetry. apply andb_false_iff. right. apply N.leb_gt. lia.
Qed.

Lemma lowByte_small (c : N) : c < 256 -> Buffer.lowByte c = c.
Proof.
  intros Hc. unfold Buffer.lowByte.
  change 255 with (N.ones 8). rewrite N.land_ones.
  apply N.mod_small. exact Hc.
Qed.

Lemma lowByte_hexDigit (d : N) :
  Buffer.lowByte (Buffer.hexDigit d) = Buffer.hexDigit d.
Proof.
  apply lowByte_small. unfold Buffer.hexDigit.
  assert (Hd : d mod 16 < 16) by (apply N.mod_lt; discriminate).
  set (e := d mod 16) in *. clearbody e.
  destruct (N.ltb_spec e 10); lia.
Qed.

Lemma from_hex_toString_hex (b : Buffer.bytes) :
  Forall (fun x => x < 256) b -> Buffer.from_hex (Buffer.toString_hex b) = b.
Proof.
  induction 1 as [|x b Hx _ IH]; [reflexivity|].
  cbv beta in Hx. unfold Buffer.toString_hex in *.
  cbn [flat_map app Buffer.from_hex].
  rewrite !lowByte_hexDigit, !unhex_hexDigit, IH. f_equal. nlia.
Qed.

Lemma hexDigit_lowerHex (d : N) : isLowerHex (Buffer.hexDigit d) = true.
Proof.
  unfold Buffer.hexDigit, isLowerHex.
  assert (Hd : d mod 16 < 16) by (apply N.mod_lt; discriminate).
  set (e := d mod 16) in *. clearbody e.
  destruct (N.ltb_spec e 10); apply orb_true_iff; [left|right];
    apply andb_true_iff; split; apply N.leb_le; lia.
Qed.

Lemma toString_hex_lowerHex (b : Buffer.bytes) :
  Forall (fun c => isLowerHex c = true) (Buffer.toString_hex b).
Proof.
  induction b as [|x b IH]; [constructor|].
  unfold Buffer.toString_hex in *. cbn [flat_map app].
  repeat constructor; auto using hexDigit_lowerHex.
Qed.

Lemma lowerHex_lowerAlnum (c : N) :
  isLowerHex c = true -> isLowerAlnum c = true.
Proof.
  unfold isLowerHex, isLowerAlnum. intro Hc.
  apply orb_true_iff in Hc as [Hc|Hc]; apply andb_true_iff in Hc as [Ha Hb];
    apply N.leb_le in Ha, Hb; apply orb_true_iff; [right|left];
    apply andb_true_iff; split; apply N.leb_le; lia.
Qed.

Lemma from_utf8_cons (c : N) (rest : jsstring) :
  Buffer.from_utf8 (c :: rest) =
  if c <? 128 then c :: Buffer.from_utf8 rest
  else if c <? 2048 then Buffer.utf8_2 c ++ Buffer.from_utf8 rest
  else if Buffer.isHighSurrogate c then
    match rest with
    | d :: rest' =>
        if Buffer.isLowSurrogate d
        then Buffer.utf8_4 (65536 + (c - 55296) * 1024 + (d - 56320))
               ++ Buffer.from_utf8 rest'
        else Buffer.replacement ++ Buffer.from_utf8 rest
    | [] => Buffer.replacement
    end
  else if Buffer.isLowSurrogate c
       then Buffer.replacement ++ Buffer.from_utf8 rest
       else Buffer.utf8_3 c ++ Buffer.from_utf8 rest.
Proof. reflexivity. Qed.

Lemma low_surrogate_not_latin (c : N) :
  c < 128 -> Buffer.isLowSurrogate c = false.
Proof.
  intro Hc. unfold Buffer.isLowSurrogate. apply andb_false_iff. left.
  apply N.leb_gt. lia.
Qed.

(** The encoding of a string is the encoding of its part before a Basic
    Latin unit followed by the encoding of the rest: such a unit never
    completes a surrogate pair. *)
Lemma from_utf8_app_latin (u : jsstring) (c : N) (r : jsstring) :
  c < 128 ->
  Buffer.from_utf8 (u ++ c :: r)
  = Buffer.from_utf8 u ++ Buffer.from_utf8 (c :: r).
Proof.
  intro Hc.
  assert (G : forall n u, (List.length u <= n)%nat ->
            Buffer.from_utf8 (u ++ c :: r)
            = Buffer.from_utf8 u ++ Buffer.from_utf8 (c :: r)).
  { induction n as [|n IH]; intros [|x v] Hl; cbn [List.length] in Hl;
      try reflexivity; try (exfalso; lia).
    cbn [app]. rewrite (from_utf8_cons x (v ++ c :: r)), (from_utf8_cons x v).
    assert (IHv : Buffer.from_utf8 (v ++ c :: r)
                  = Buffer.from_utf8 v ++ Buffer.from_utf8 (c :: r))
      by (apply IH; lia).
    destruct (x <? 128); [now rewrite IHv|].
    destruct (x <? 2048); [now rewrite IHv, app_assoc|].
    destruct (Buffer.isHighSurrogate x).
    - destruct v as [|d w]; cbn [app].
      + rewrite (low_surrogate_not_latin c Hc). reflexivity.
      + destruct (Buffer.isLowSurrogate d).
        * rewrite <- app_assoc. f_equal. apply IH. cbn [List.length] in Hl. lia.
        * cbn [app] in IHv. rewrite IHv. now rewrite app_assoc.
    - destruct (Buffer.isLowSurrogate x); now rewrite IHv, app_assoc. }
  apply (G (List.length u)). lia.
Qed.

Lemma from_utf8_latin (s : jsstring) :
  Forall (fun c => c < 128) s -> Buffer.from_utf8 s = s.
Proof.
  induction 1 as [|c s Hc _ IH]; [reflexivity|].
  rewrite from_utf8_cons. apply N.ltb_lt in Hc. now rewrite Hc, IH.
Qed.

Lemma replacement_plain : Forall plainByte Buffer.replacement.
Proof.
  unfold plainByte, Buffer.replacement, tilde.
  repeat constructor; rewrite ?land_127; try (cbv; congruence); lia.
Qed.

(** No byte of the encoding of a string without the separator decodes, as
    [ascii], to the separator. *)
Lemma from_utf8_plain (u : jsstring) :
  wfString u -> ~ In tilde u -> Forall plainByte (Buffer.from_utf8 u).
Proof.
  assert (G : forall n u, (List.length u <= n)%nat -> wfString u ->
            ~ In tilde u -> Forall plainByte (Buffer.from_utf8 u)).
  { induction n as [|n IH]; intros [|x v] Hl Hw Hn; cbn [List.length] in Hl;
      try constructor; try (exfalso; lia).
    inversion Hw as [|? ? Hx Hv]; subst. cbv beta in Hx.
    assert (Hx' : x <> 126) by (intro; apply Hn; left; unfold tilde; congruence).
    assert (Hn' : ~ In tilde v) by (intro; apply Hn; now right).
    assert (IHv : Forall plainByte (Buffer.from_utf8 v))
      by (apply IH; [lia|assumption..]).
    rewrite from_utf8_cons.
    destruct (N.ltb_spec x 128) as [L1|L1].
    { constructor; [|assumption]. unfold plainByte, tilde.
      rewrite land_127. split; [lia|].
      rewrite N.mod_small by assumption. assumption. }
    destruct (N.ltb_spec x 2048) as [L2|L2].
    { apply Forall_app. split; [|assumption].
      unfold Buffer.utf8_2, plainByte, tilde.
      repeat constructor; rewrite ?land_127; nlia. }
    destruct (Buffer.isHighSurrogate x) eqn:Hh.
    - unfold Buffer.isHighSurrogate in Hh. apply andb_true_iff in Hh as [Ha Hb].
      apply N.leb_le in Ha. apply N.ltb_lt in Hb.
      destruct v as [|d w]; [apply replacement_plain|].
      destruct (Buffer.isLowSurrogate d) eqn:Hd.
      + unfold Buffer.isLowSurrogate in Hd.
        apply andb_true_iff in Hd as [Hc He].
        apply N.leb_le in Hc. apply N.ltb_lt in He.
        apply Forall_app. split.
        * unfold Buffer.utf8_4, plainByte, tilde.
          repeat constructor; rewrite ?land_127; nlia.
        * apply IH.
          -- cbn [List.length] in Hl. lia.
          -- now inversion Hv.
          -- intro; apply Hn'; now right.
      + apply Forall_app. split; [apply replacement_plain|assumption].
    - destruct (Buffer.isLowSurrogate x).
      + apply Forall_app. split; [apply replacement_plain|assumption].
      + apply Forall_app. split; [|assumption].
        unfold Buffer.utf8_3, plainByte, tilde.
        repeat constructor; rewrite ?land_127; nlia. }
  intros. apply (G (List.length u)); auto.
Qed.

Lemma toString_ascii_plain (b : Buffer.bytes) :
  Forall plainByte b -> ~ In tilde (Buffer.toString_ascii b).
Proof.
  induction 1 as [|x b [_ Hx] _ IH]; cbn [Buffer.toString_ascii map In].
  - tauto.
  - intros [E|E]; [now apply Hx|now apply IH].
Qed.

Lemma toString_ascii_latin (s : jsstring) :
  Forall (fun c => c < 128) s -> Buffer.toString_ascii s = s.
Proof.
  induction 1 as [|c s Hc _ IH]; [reflexivity|].
  cbn [Buffer.toString_ascii map]. fold (Buffer.toString_ascii s).
  rewrite IH, land_127, N.mod_small by assumption. reflexivity.
Qed.

End Buffers.

(* ----------------------------------------------------------------- *)
(** ** Name codec *)

(** C1 (as amended).  For an identifier [user~job] that does not start with
    [unknown], whose user part has no separator and whose job name is not
    empty and made of Basic Latin characters other than line terminators,
    decoding the encoded name gives back the job name, separators of the
    job name included. *)
Theorem decodeName_encodeName_roundtrip (U : jsstring -> jsstring)
  (user job : jsstring) :
  wfString user ->
  ~ In tilde user ->
  job <> [] ->
  Forall plainUnit job ->
  startsWith (user ++ tilde :: job) (str "unknown") = false ->
  decodeName (encodeName U (user ++ tilde :: job)) = JStr job.
Proof.
  intros Hw Hn Hne Hj Hu.
  assert (Hl : Forall (fun c => (c < 128)%N) job)
    by (eapply Forall_impl; [|exact Hj]; now intros c [? _]).
  assert (Ht : Forall (fun c => isLineTerminator c = false) job)
    by (eapply Forall_impl; [|exact Hj]; now intros c [_ ?]).
  assert (Hb : Forall plainByte (Buffer.from_utf8 user))
    by now apply from_utf8_plain.
  assert (Hs : Forall (fun c => (c < 128)%N) (tilde :: job))
    by (constructor; [reflexivity|assumption]).
  unfold encodeName. rewrite Hu, includes_tilde. cbn [negb orb].
  unfold decodeName. rewrite startsWith_app.
  unfold stripPrefix. rewrite startsWith_app.
  rewrite skipn_app, skipn_all, Nat.sub_diag. cbn [skipn app].
  rewrite from_utf8_app_latin by reflexivity.
  rewrite (from_utf8_latin (tilde :: job) Hs).
  rewrite from_hex_toString_hex.
  - unfold Buffer.toString_ascii. rewrite map_app.
    fold (Buffer.toString_ascii (Buffer.from_utf8 user)).
    fold (Buffer.toString_ascii (tilde :: job)).
    rewrite (toString_ascii_latin (tilde :: job) Hs).
    unfold split_tilde_group.
    rewrite splitTilde_first; auto using toString_ascii_plain.
  - apply Forall_app. split.
    + eapply Forall_impl; [|exact Hb]. now intros b [? _].
    + eapply Forall_impl; [|exact Hs]. intros; cbv beta in *; lia.
Qed.

Lemma decodeName_encodeName_roundtrip_witness :
  decodeName (encodeName (unicodeLower exampleHost) (str "user~my~job"))
  = JStr (str "my~job").
Proof.
  apply (decodeName_encodeName_roundtrip (unicodeLower exampleHost)
           (str "user") (str "my~job")).
  - units.
  - vm_compute. intuition discriminate.
  - discriminate.
  - repeat constructor.
  - reflexivity.
Defined.

(** C1 (as stated) fails: a job name with a character outside Basic Latin
    comes back as other characters, a job name with a line break comes
    back cut at the break, and an empty job name comes back as
    [undefined]. *)
Lemma decodeName_encodeName_counterexample :
  (includes (str "user~" ++ [233%N]) (str "~") = true
   /\ startsWith (str "user~" ++ [233%N]) (str "unknown") = false
   /\ decodeName (encodeName (unicodeLower exampleHost)
                    (str "user~" ++ [233%N]))
      = JStr (str "C)")
   /\ JStr (str "C)") <> JStr [233%N])
  /\ (decodeName (encodeName (unicodeLower exampleHost)
                    (str "user~a" ++ [10%N] ++ str "b"))
      = JStr (str "a")
      /\ JStr (str "a") <> JStr (str "a" ++ [10%N] ++ str "b"))
  /\ (decodeName (encodeName (unicodeLower exampleHost) (str "user~"))
      = JUndefined
      /\ JUndefined <> JStr []).
Proof.
  repeat split; discriminate.
Qed.

(** C10.  Every name [encodeName] returns is made of characters of
    [[a-z0-9]]: it is either the lower-cased name without its leading
    [unknown] and without every other character, or the marker [hex]
    followed by lower-case hexadecimal digits. *)
Theorem encodeName_legal (U : jsstring -> jsstring) (name : jsstring) :
  Forall (fun c => isLowerAlnum c = true) (encodeName U name)
  /\ (encodeName U name
      = filter isLowerAlnum (toLowerCase U (stripPrefix (str "unknown") name))
      \/ exists digits,
           encodeName U name = str "hex" ++ digits
           /\ Forall (fun c => isLowerHex c = true) digits).
Proof.
  unfold encodeName.
  destruct (startsWith name (str "unknown") || negb (includes name (str "~"))).
  - split; [|now left].
    unfold convertName. apply Forall_forall. intros c Hc.
    now apply filter_In in Hc.
  - split.
    + repeat constructor.
      eapply Forall_impl; [|apply toString_hex_lowerHex].
      apply lowerHex_lowerAlnum.
    + right. eexists. split; [reflexivity|apply toString_hex_lowerHex].
Qed.

(* ----------------------------------------------------------------- *)
(** ** State mapper *)

Lemma isZero_false (v : jsval) : v <> JNum 0 -> isZero v = false.
Proof.
  destruct v as [| | |z| | | |]; try reflexivity.
  intro Hz. cbn [isZero]. apply Z.eqb_neq. congruence.
Qed.

Lemma convertState_unknown (state : jsstring) (exitCode : jsval) :
  ~ In state knownStates -> convertState state exitCode = str "UNKNOWN".
Proof.
  intro Hn. unfold convertState.
  repeat match goal with
  | |- context [str_eqb state ?l] =>
      let E := fresh "E" in
      destruct (str_eqb state l) eqn:E;
      [ apply str_eqb_eq in E; exfalso; apply Hn; rewrite E;
        unfold knownStates; cbn [map In]; tauto | ]
  end.
  reflexivity.
Qed.

(** C2.  [convertState] returns one of the five job states for every state
    and exit code; [Completed] gives [SUCCEEDED] with exit code 0 and
    [FAILED] with any other; [AttemptRunning] gives [RUNNING],
    [AttemptCreationPending] gives [WAITING]; a state it does not know
    gives [UNKNOWN]. *)
Theorem convertState_table (state : jsstring) (exitCode : jsval) :
  In (convertState state exitCode) jobStates
  /\ convertState (str "Completed") (JNum 0) = str "SUCCEEDED"
  /\ (exitCode <> JNum 0 ->
      convertState (str "Completed") exitCode = str "FAILED")
  /\ convertState (str "AttemptRunning") exitCode = str "RUNNING"
  /\ convertState (str "AttemptCreationPending") exitCode = str "WAITING"
  /\ (~ In state knownStates -> convertState state exitCode = str "UNKNOWN").
Proof.
  repeat split.
  - unfold convertState, jobStates. cbn [map In].
    repeat match goal with
    | |- context [if ?b then _ else _] => destruct b
    end; tauto.
  - intro Hz. change (convertState (str "Completed") exitCode)
      with (if isZero exitCode then str "SUCCEEDED" else str "FAILED").
    now rewrite isZero_false.
  - apply convertState_unknown.
Qed.

Lemma convertState_table_witness :
  convertState (str "Completed") (JNum 1) = str "FAILED"
  /\ convertState (str "Paused") (JNum 1) = str "UNKNOWN".
Proof.
  destruct (convertState_table (str "Paused") (JNum 1))
    as (_ & _ & Hfailed & _ & _ & Hunknown).
  split.
  - apply Hfailed. discriminate.
  - apply Hunknown. vm_compute. intuition discriminate.
Defined.

(* ----------------------------------------------------------------- *)
(** ** Framework description builder *)

Lemma notIdenticalNum_false (v : jsval) (n : Z) :
  notIdenticalNum v n = false <-> v = JNum n.
Proof.
  destruct v as [| | |z| | | |]; cbn [notIdenticalNum];
    try (split; discriminate).
  rewrite negb_false_iff, Z.eqb_eq. split; congruence.
Qed.

Lemma orElse_num (n : Z) : orElse (JNum n) (JNum 0) = JNum n.
Proof.
  unfold orElse. cbn [truthy]. destruct (Z.eqb_spec n 0); subst; reflexivity.
Qed.

(** The two ways [generateTaskRole] returns, once the image is there:
    with the hived part, after [yaml.safeDump] returned, and without it. *)
Ltac taskRole_built Hd :=
  destruct (truthy (enabledHived (launcherConfig _))) eqn:?;
  [ match type of Hd with
    | context [safeDump ?H ?v] =>
        destruct (safeDump H v) eqn:?; [|discriminate Hd]
    end
  | ];
  injection Hd as <-.

Lemma generateTaskRole_returns_role (H : Host) (taskRole : jsstring)
  (labels : list (jsstring * jsval)) (config : JobConfig)
  (role : TaskRoleConfig) (uri : jsval) :
  lookup taskRole (taskRoles config) = Some role ->
  dockerImageUri config (dockerImage role) = Return uri ->
  podSpecDumps H role ->
  exists d, generateTaskRole H taskRole labels config = Return d.
Proof.
  intros Hr Hu Hp. unfold generateTaskRole. rewrite Hr, Hu.
  unfold podSpecDumps in Hp.
  destruct (truthy (enabledHived (launcherConfig H))).
  - destruct (Hp eq_refl) as (text & ->). eexists. reflexivity.
  - eexists. reflexivity.
Qed.

Lemma generateTaskRole_returns (H : Host) (labels : list (jsstring * jsval))
  (config : JobConfig) (taskRole : jsstring) :
  imagesDeclared config ->
  podSpecsDump H config ->
  In taskRole (map fst (taskRoles config)) ->
  exists d, generateTaskRole H taskRole labels config = Return d.
Proof.
  intros Hd Hp Hin. destruct (lookup_key _ _ _ Hin) as (role & Hr & Hi).
  unfold imagesDeclared in Hd. rewrite Forall_forall in Hd.
  unfold podSpecsDump in Hp. rewrite Forall_forall in Hp.
  destruct (Hd role Hi) as (uri & Hu).
  exact (generateTaskRole_returns_role H taskRole labels config role uri
           Hr Hu (Hp role Hi)).
Qed.

Lemma fillTaskRoles_returns (H : Host) (labels : list (jsstring * jsval))
  (config : JobConfig) (envlist : list jsval) (names : list jsstring) :
  (forall taskRole, In taskRole names ->
     exists d, generateTaskRole H taskRole labels config = Return d) ->
  forall i, exists ds,
    fillTaskRoles H labels config envlist names i = Return ds
    /\ List.length ds = List.length names.
Proof.
  induction names as [|taskRole rest IH]; intros Hall i; cbn [fillTaskRoles].
  - exists []. auto.
  - destruct (Hall taskRole (or_introl eq_refl)) as (d & Hd). rewrite Hd.
    destruct (IH (fun t Ht => Hall t (or_intror Ht)) (S i)) as (ds & Hds & Hl).
    rewrite Hds. eexists. split; [reflexivity|].
    cbn [List.length]. now rewrite Hl.
Qed.

(** C3.  Every framework description that is built has, as job-level
    retry policy, [fancyRetryPolicy] false exactly when [jobRetryCount] is
    -2 and true for every other value, and [maxRetryCount] equal to
    [jobRetryCount], 0 when it is absent.  A description is built whenever
    the images of the task roles are declared and, with the hived scheduler
    enabled, [yaml.safeDump] writes their pod specifications. *)
Theorem generateFrameworkDescription_retryPolicy (H : Host)
  (frameworkName : jsstring) (virtualCluster : jsval) (config : JobConfig)
  (rawConfig : jsval) :
  (forall frameworkDescription,
     generateFrameworkDescription H frameworkName virtualCluster config
       rawConfig
     = Return frameworkDescription ->
     let retryPolicy := get "retryPolicy" (get "spec" frameworkDescription) in
     (get "fancyRetryPolicy" retryPolicy = JBool false
      <-> jobRetryCount config = JNum (-2))
     /\ (jobRetryCount config <> JNum (-2) ->
         get "fancyRetryPolicy" retryPolicy = JBool true)
     /\ (forall n, jobRetryCount config = JNum n ->
         get "maxRetryCount" retryPolicy = JNum n)
     /\ (jobRetryCount config = JUndefined ->
         get "maxRetryCount" retryPolicy = JNum 0))
  /\ (imagesDeclared config ->
      podSpecsDump H config ->
      exists frameworkDescription,
        generateFrameworkDescription H frameworkName virtualCluster config
          rawConfig
        = Return frameworkDescription).
Proof.
  split.
  - intros fd Hfd. unfold generateFrameworkDescription in Hfd.
    match type of Hfd with
    | context [fillTaskRoles H ?lb config ?el ?ns 0] =>
        destruct (fillTaskRoles H lb config el ns 0) as [ds|e];
        [|discriminate Hfd]
    end.
    injection Hfd as <-. cbv zeta.
    match goal with
    | |- context [get "retryPolicy" ?x] =>
        change (get "retryPolicy" x)
          with (JObj [ "fancyRetryPolicy" :-
                         JBool (notIdenticalNum (jobRetryCount config) (-2));
                       "maxRetryCount" :-
                         orElse (jobRetryCount config) (JNum 0) ])
    end.
    change (get "fancyRetryPolicy" (JObj ?fs)) with
      (JBool (notIdenticalNum (jobRetryCount config) (-2))).
    change (get "maxRetryCount" (JObj ?fs)) with
      (orElse (jobRetryCount config) (JNum 0)).
    repeat split.
    + intro E. injection E as E. now apply notIdenticalNum_false.
    + intro E. f_equal. now apply notIdenticalNum_false.
    + intro Hne. destruct (notIdenticalNum (jobRetryCount config) (-2)) eqn:E;
        [reflexivity|]. apply notIdenticalNum_false in E. contradiction.
    + intros n E. rewrite E. apply orElse_num.
    + intro E. now rewrite E.
  - intros Hd Hp. unfold generateFrameworkDescription.
    match goal with
    | |- context [fillTaskRoles H ?lb config ?el ?ns 0] =>
        destruct (fillTaskRoles_returns H lb config el ns
                    (fun t Ht =>
                       generateTaskRole_returns H lb config t Hd Hp
                         (objectKeys_In _ _ _ Ht))
                    0)
          as (ds & Hds & _); rewrite Hds
    end.
    eexists. reflexivity.
Qed.

Lemma exampleConfig_imagesDeclared (retries : jsval)
  (policy : option Completion) : imagesDeclared (exampleConfig retries policy).
Proof.
  repeat constructor. eexists. reflexivity.
Defined.

Lemma exampleConfig_podSpecsDump (retries : jsval)
  (policy : option Completion) :
  podSpecsDump exampleHost (exampleConfig retries policy).
Proof.
  repeat constructor. intro E. discriminate E.
Defined.

Lemma generateFrameworkDescription_retryPolicy_witness :
  exists frameworkDescription,
    generateFrameworkDescription exampleHost (str "user~job")
      (JStr (str "default")) (exampleConfig (JNum (-2)) None)
      (JStr (str "jobRetryCount: -2"))
    = Return frameworkDescription
    /\ get "fancyRetryPolicy"
         (get "retryPolicy" (get "spec" frameworkDescription))
       = JBool false
    /\ get "maxRetryCount"
         (get "retryPolicy" (get "spec" frameworkDescription))
       = JNum (-2).
Proof.
  destruct (generateFrameworkDescription_retryPolicy exampleHost
              (str "user~job") (JStr (str "default"))
              (exampleConfig (JNum (-2)) None)
              (JStr (str "jobRetryCount: -2")))
    as (Hpolicy & Hbuilt).
  destruct (Hbuilt (exampleConfig_imagesDeclared (JNum (-2)) None)
              (exampleConfig_podSpecsDump (JNum (-2)) None))
    as (fd & Hfd).
  destruct (Hpolicy fd Hfd) as (Hfancy & _ & Hmax & _).
  exists fd. split; [exact Hfd|]. split.
  - now apply Hfancy.
  - now apply Hmax.
Defined.

(** C4.  Every task role that is built for a role without [completion]
    has the completion policy
    [{minFailedTaskCount: 1, minSucceededTaskCount: -1}]; for a role with a
    [completion] object its [minFailedInstances] and
    [minSucceededInstances] are used, each missing one replaced by the same
    default.  The task role is built whenever its image is declared and,
    with the hived scheduler enabled, [yaml.safeDump] writes its pod
    specification. *)
Theorem generateTaskRole_completionPolicy (H : Host) (taskRole : jsstring)
  (labels : list (jsstring * jsval)) (config : JobConfig)
  (role : TaskRoleConfig) :
  lookup taskRole (taskRoles config) = Some role ->
  (forall frameworkTaskRole,
     generateTaskRole H taskRole labels config = Return frameworkTaskRole ->
     (completion role = None ->
      get "frameworkAttemptCompletionPolicy" frameworkTaskRole
      = JObj [ "minFailedTaskCount" :- JNum 1;
               "minSucceededTaskCount" :- JNum (-1) ])
     /\ (forall c, completion role = Some c ->
         get "frameworkAttemptCompletionPolicy" frameworkTaskRole
         = JObj [ "minFailedTaskCount" :-
                    orDefault (minFailedInstances c) (JNum 1);
                  "minSucceededTaskCount" :-
                    orDefault (minSucceededInstances c) (JNum (-1)) ]))
  /\ (forall uri,
        dockerImageUri config (dockerImage role) = Return uri ->
        podSpecDumps H role ->
        exists frameworkTaskRole,
          generateTaskRole H taskRole labels config = Return frameworkTaskRole).
Proof.
  intro Hr. split.
  - intros d Hd. unfold generateTaskRole in Hd. rewrite Hr in Hd.
    destruct (dockerImageUri config (dockerImage role)) as [uri|e];
      [|discriminate Hd].
    assert (G : forall text t,
              get "frameworkAttemptCompletionPolicy" (hivedSpec H text t)
              = get "frameworkAttemptCompletionPolicy" t).
    { intros text t. unfold hivedSpec, envPath, limitsPath.
      now rewrite !get_modifyAt_other by reflexivity. }
    destruct (truthy (enabledHived (launcherConfig H)));
      [destruct (safeDump H (hivedPodSpec role)) as [text|e];
         [|discriminate Hd]|];
      injection Hd as <-; rewrite ?G;
      (split;
       [ intro Hc; cbn; unfold frameworkAttemptCompletionPolicy;
         now rewrite Hc
       | intros c Hc; cbn; unfold frameworkAttemptCompletionPolicy;
         now rewrite Hc ]).
  - intros uri Hu Hp.
    exact (generateTaskRole_returns_role H taskRole labels config role uri
             Hr Hu Hp).
Qed.

Lemma generateTaskRole_completionPolicy_witness :
  exists frameworkTaskRole,
    generateTaskRole exampleHost (str "worker")
      [ "jobName" :- JStr (str "job"); "userName" :- JStr (str "user");
        "virtualCluster" :- JStr (str "default") ]
      (exampleConfig (JNum 0) None)
    = Return frameworkTaskRole
    /\ get "taskNumber" frameworkTaskRole = JNum 3
    /\ get "frameworkAttemptCompletionPolicy" frameworkTaskRole
       = JObj [ "minFailedTaskCount" :- JNum 1;
                "minSucceededTaskCount" :- JNum (-1) ].
Proof.
  destruct (generateTaskRole_completionPolicy exampleHost (str "worker")
              [ "jobName" :- JStr (str "job"); "userName" :- JStr (str "user");
                "virtualCluster" :- JStr (str "default") ]
              (exampleConfig (JNum 0) None) (exampleRole None) eq_refl)
    as (Hpolicy & Hbuilt).
  destruct (Hbuilt (JStr (str "openpai/pytorch")) eq_refl
              (fun E => False_ind _ (diff_false_true E)))
    as (d & Hd).
  destruct (Hpolicy d Hd) as (Hdefault & _).
  exists d. split; [exact Hd|]. split; [|now apply Hdefault].
  vm_compute in Hd. injection Hd as <-. reflexivity.
Defined.

(* ----------------------------------------------------------------- *)
(** ** Requests to the framework controller *)

Section Requests.

Variables (A S : Type).
Variable h : Request -> S -> outcome Response AxiosError * S.

(** An operation that ends once the response is there makes one call. *)
Lemma run_axios (request : Request) (k : Response -> Client A) (s : S)
  (response : Response) (r : Result Exn A) :
  delivered (fst (h request s)) = Some response ->
  k response = Done r ->
  run h (axios request k) s = ([request], r, snd (h request s)).
Proof.
  intros Hd Hk. unfold axios. cbn [run].
  destruct (h request s) as [o s']. cbn [fst snd] in *.
  destruct o as [x|e]; cbn [delivered] in Hd.
  - injection Hd as ->. now rewrite Hk.
  - rewrite Hd, Hk. reflexivity.
Qed.

Lemma run_one_call (request : Request) (k : Response -> Client A) (s : S) :
  (forall response, exists r, k response = Done r) ->
  fst (fst (run h (axios request k) s)) = [request].
Proof.
  intro Hk. unfold axios. cbn [run].
  destruct (h request s) as [o s'].
  destruct o as [x|e].
  - destruct (Hk x) as (r & ->). reflexivity.
  - destruct (ae_response e) as [x|]; [|reflexivity].
    destruct (Hk x) as (r & ->). reflexivity.
Qed.

End Requests.

(** *** Sorting *)

Lemma insertSorted_perm (x : jsval) (l : list jsval) :
  Permutation (x :: l) (insertSorted x l).
Proof.
  induction l as [|y l IH]; cbn [insertSorted]; [reflexivity|].
  destruct (follows x y); [|reflexivity].
  rewrite perm_swap. now constructor.
Qed.

Lemma sort_perm (l : list jsval) : Permutation l (sort l).
Proof.
  induction l as [|x l IH]; cbn [sort]; [reflexivity|].
  rewrite <- insertSorted_perm. now constructor.
Qed.

Lemma follows_timed (a b : jsval) (ta tb : Z) :
  get "createdTime" a = JNum ta -> get "createdTime" b = JNum tb ->
  follows a b = (ta <? tb)%Z.
Proof.
  intros Ha Hb. unfold follows, comparefn. rewrite Ha, Hb. cbn [minus].
  destruct (Z.ltb_spec 0 (tb - ta)), (Z.ltb_spec ta tb); reflexivity || lia.
Qed.

Lemma insertSorted_descending (x : jsval) (l : list jsval) :
  timed x -> Forall timed l -> descending l -> descending (insertSorted x l).
Proof.
  intros [tx Hx] Hl Hs. unfold descending in *.
  induction l as [|y l IH]; cbn [insertSorted].
  - repeat constructor.
  - inversion Hl as [|? ? [ty Hy] Hl']; subst.
    inversion Hs as [|? ? Hs' Hy']; subst.
    rewrite (follows_timed x y tx ty Hx Hy).
    destruct (Z.ltb_spec tx ty) as [Lt|Ge].
    + constructor; [now apply IH|].
      apply Forall_forall. intros z Hz.
      apply (Permutation_in z (Permutation_sym (insertSorted_perm x l))) in Hz.
      destruct Hz as [<-|Hz].
      * unfold createdNoLater. rewrite Hx, Hy. apply Z.leb_le. lia.
      * rewrite Forall_forall in Hy'. now apply Hy'.
    + constructor; [assumption|].
      constructor.
      * unfold createdNoLater. rewrite Hx, Hy. apply Z.leb_le. lia.
      * rewrite Forall_forall in Hy', Hl'. apply Forall_forall. intros z Hz.
        destruct (Hl' z Hz) as [tz Hz']. specialize (Hy' z Hz).
        unfold createdNoLater in *. rewrite Hy, Hx, Hz' in *.
        apply Z.leb_le in Hy'. apply Z.leb_le. lia.
Qed.

Lemma sort_descending (l : list jsval) :
  Forall timed l -> descending (sort l).
Proof.
  induction 1 as [|x l Hx Hl IH]; cbn [sort].
  - constructor.
  - apply insertSorted_descending; auto.
    apply Forall_forall. intros z Hz.
    apply (Permutation_in z (Permutation_sym (sort_perm l))) in Hz.
    rewrite Forall_forall in Hl. now apply Hl.
Qed.

(** Three elements created at three different times come out latest
    first, whatever their order in the input. *)
Lemma sort_three (a b c : jsval) (ta tb tc : Z) (l : list jsval) :
  get "createdTime" a = JNum ta ->
  get "createdTime" b = JNum tb ->
  get "createdTime" c = JNum tc ->
  (ta < tb)%Z -> (tb < tc)%Z ->
  Permutation [a; b; c] l ->
  sort l = [c; b; a].
Proof.
  intros Ha Hb Hc L1 L2 Hp.
  assert (Hlen := Permutation_length Hp). cbn [List.length] in Hlen.
  destruct l as [|x [|y [|z [|]]]]; try discriminate.
  assert (Hx : In x [a; b; c]) by
    (apply (Permutation_in x (Permutation_sym Hp)); now left).
  assert (Hy : In y [a; b; c]) by
    (apply (Permutation_in y (Permutation_sym Hp)); right; now left).
  assert (Hz : In z [a; b; c]) by
    (apply (Permutation_in z (Permutation_sym Hp)); right; right; now left).
  assert (Ia : In a [x; y; z]) by (apply (Permutation_in a Hp); now left).
  assert (Ib : In b [x; y; z]) by (apply (Permutation_in b Hp); right; now left).
  assert (Ic : In c [x; y; z])
    by (apply (Permutation_in c Hp); right; right; now left).
  assert (Nab : a <> b) by (intro; subst; rewrite Ha in Hb; injection Hb; lia).
  assert (Nbc : b <> c) by (intro; subst; rewrite Hb in Hc; injection Hc; lia).
  assert (Nac : a <> c) by (intro; subst; rewrite Ha in Hc; injection Hc; lia).
  cbn [In] in *.
  assert (T : forall u v tu tv, get "createdTime" u = JNum tu ->
              get "createdTime" v = JNum tv -> (tu < tv)%Z ->
              follows u v = true /\ follows v u = false).
  { intros u v tu tv Hu Hv L.
    rewrite (follows_timed u v tu tv Hu Hv), (follows_timed v u tv tu Hv Hu).
    split; [apply Z.ltb_lt|apply Z.ltb_ge]; lia. }
  destruct (T _ _ _ _ Ha Hb L1) as [Fab Fba].
  destruct (T _ _ _ _ Hb Hc L2) as [Fbc Fcb].
  destruct (T _ _ _ _ Ha Hc ltac:(lia)) as [Fac Fca].
  destruct Hx as [<-|[<-|[<-|[]]]]; destruct Hy as [<-|[<-|[<-|[]]]];
    destruct Hz as [<-|[<-|[<-|[]]]];
    try (exfalso; intuition congruence);
    cbn [sort insertSorted];
    rewrite ?Fab, ?Fba, ?Fbc, ?Fcb, ?Fac, ?Fca; cbn [insertSorted];
    rewrite ?Fab, ?Fba, ?Fbc, ?Fcb, ?Fac, ?Fca; reflexivity.
Qed.

Lemma summaries_timed (H : Host) (items : list Framework) :
  Forall (validStart H) items ->
  Forall timed (map (convertFrameworkSummary H) items).
Proof.
  induction 1 as [|fw items [t Ht] _ IH]; cbn [map]; constructor; auto.
  exists t. exact Ht.
Qed.

(** C5 (as amended).  When the controller answers the list request with
    status 200 and frameworks whose start times are all valid dates,
    [list] returns their summaries sorted by [createdTime], latest first:
    every earlier element is created no earlier than every later one, and
    three frameworks created at T1 < T2 < T3 come out as T3, T2, T1. *)
Theorem list_sorted_by_createdTime (H : Host) (S : Type)
  (h : Request -> S -> outcome Response AxiosError * S) (s : S)
  (response : Response) (items : list Framework) :
  delivered (fst (h (listRequest H) s)) = Some response ->
  rs_status response = 200%Z ->
  rs_data response = FrameworkListBody items ->
  Forall (validStart H) items ->
  exists frameworkList,
    run h (Framework.list H) s
    = ([listRequest H], Return (JArr frameworkList), snd (h (listRequest H) s))
    /\ Permutation (map (convertFrameworkSummary H) items) frameworkList
    /\ descending frameworkList
    /\ (forall f1 f2 f3 t1 t2 t3,
          newDateGetTime H (startTime (status f1)) = JNum t1 ->
          newDateGetTime H (startTime (status f2)) = JNum t2 ->
          newDateGetTime H (startTime (status f3)) = JNum t3 ->
          (t1 < t2)%Z -> (t2 < t3)%Z ->
          Permutation [f1; f2; f3] items ->
          frameworkList = map (convertFrameworkSummary H) [f3; f2; f1]).
Proof.
  intros Hd Hs Hb Hv.
  exists (sort (map (convertFrameworkSummary H) items)).
  split; [|split; [|split]].
  - apply (run_axios _ _ h _ _ s response _ Hd). cbv beta.
    rewrite Hs, Hb. reflexivity.
  - apply sort_perm.
  - apply sort_descending. now apply summaries_timed.
  - intros f1 f2 f3 t1 t2 t3 H1 H2 H3 L1 L2 Hp. cbn [map].
    apply (sort_three _ _ _ t1 t2 t3); auto.
    change [convertFrameworkSummary H f1; convertFrameworkSummary H f2;
            convertFrameworkSummary H f3]
      with (map (convertFrameworkSummary H) [f1; f2; f3]).
    now apply Permutation_map.
Qed.

Lemma list_sorted_by_createdTime_witness :
  exists frameworkList,
    run (answering (Fulfilled {| rs_status := 200;
                                 rs_data := FrameworkListBody threeFrameworks |}))
        (Framework.list exampleHost) tt
    = ([listRequest exampleHost], Return (JArr frameworkList), tt)
    /\ map (get "createdTime") frameworkList = [JNum 3000; JNum 2000; JNum 1000]
    /\ descending frameworkList.
Proof.
  destruct (list_sorted_by_createdTime exampleHost unit
              (answering (Fulfilled {| rs_status := 200;
                                       rs_data := FrameworkListBody
                                                    threeFrameworks |}))
              tt _ threeFrameworks eq_refl eq_refl eq_refl)
    as (l & Hrun & _ & Hsorted & _).
  - repeat constructor; eexists; reflexivity.
  - exists l. split; [exact Hrun|]. split; [|exact Hsorted].
    vm_compute in Hrun. injection Hrun as <-. reflexivity.
Defined.

(** C5 (as stated) fails: a framework without a start time has [NaN] as
    [createdTime], which is not greater than or equal to any time. *)
Lemma list_sorted_counterexample :
  exists frameworkList,
    run (answering
           (Fulfilled {| rs_status := 200;
                         rs_data := FrameworkListBody [
                           exampleFramework (str "a") (TimeString (str "5")) None;
                           exampleFramework (str "b") TimeAbsent None ] |}))
        (Framework.list exampleHost) tt
    = ([listRequest exampleHost], Return (JArr frameworkList), tt)
    /\ map (get "createdTime") frameworkList = [JNum 5; JNaN]
    /\ ~ descending frameworkList.
Proof.
  eexists. split; [reflexivity|]. split; [reflexivity|].
  intro Hs. inversion Hs as [|? ? _ Hall]; subst.
  inversion Hall as [|? ? Hab _]; subst. discriminate Hab.
Qed.

(** *** Lookups by name *)

(** C6.  When the controller answers [get] with status 404, [get] throws
    the [NoJobError] error whose message names the job as the caller gave
    it; with any other status than 200 or 404 it throws the
    [UnknownError] error with the status and the message of the
    response. *)
Theorem get_not_found (H : Host) (S : Type)
  (h : Request -> S -> outcome Response AxiosError * S) (s : S)
  (frameworkName : jsstring) (response : Response) :
  delivered (fst (h (frameworkRequest H frameworkName) s)) = Some response ->
  (rs_status response = 404%Z ->
   run h (Framework.get H frameworkName) s
   = ([frameworkRequest H frameworkName],
      Throw (Thrown (createError H (JStr (str "Not Found")) (str "NoJobError")
               (JStr (str "Job " ++ frameworkName ++ str " is not found.")))),
      snd (h (frameworkRequest H frameworkName) s)))
  /\ (rs_status response <> 200%Z -> rs_status response <> 404%Z ->
      run h (Framework.get H frameworkName) s
      = ([frameworkRequest H frameworkName],
         Throw (Thrown (createError H (JNum (rs_status response))
                          (str "UnknownError")
                  (data_message (rs_data response)))),
         snd (h (frameworkRequest H frameworkName) s))).
Proof.
  intro Hd. split.
  - intro E. apply (run_axios _ _ h _ _ s response _ Hd). cbv beta.
    rewrite E. reflexivity.
  - intros E1 E2. apply (run_axios _ _ h _ _ s response _ Hd). cbv beta.
    apply Z.eqb_neq in E1, E2. unfold status_OK, status_NotFound.
    rewrite E1, E2. reflexivity.
Qed.

Lemma get_not_found_witness :
  run (answering (rejectedWith 404 "frameworks not found"))
      (Framework.get exampleHost (str "user~job")) tt
  = ([frameworkRequest exampleHost (str "user~job")],
     Throw (Thrown (createError exampleHost (JStr (str "Not Found"))
                      (str "NoJobError")
              (JStr (str "Job user~job is not found.")))),
     tt)
  /\ run (answering (rejectedWith 500 "internal error"))
         (Framework.get exampleHost (str "user~job")) tt
     = ([frameworkRequest exampleHost (str "user~job")],
        Throw (Thrown (createError exampleHost (JNum 500) (str "UnknownError")
                 (JStr (str "internal error")))),
        tt).
Proof.
  split.
  - apply (proj1 (get_not_found exampleHost unit
                    (answering (rejectedWith 404 "frameworks not found")) tt
                    (str "user~job") _ eq_refl)).
    reflexivity.
  - apply (proj2 (get_not_found exampleHost unit
                    (answering (rejectedWith 500 "internal error")) tt
                    (str "user~job") _ eq_refl)); discriminate.
Defined.

(** C7 (as amended).  [getConfig] throws [NoJobConfigError] when the
    controller answers with status 200 and a framework without a [config]
    annotation, and the different error [NoJobError] when it answers with
    status 404; when the annotation is there and its text is not empty,
    [getConfig] gives what loading exactly that text gives. *)
Theorem getConfig_outcomes (H : Host) (S : Type)
  (h : Request -> S -> outcome Response AxiosError * S) (s : S)
  (frameworkName : jsstring) (response : Response) :
  delivered (fst (h (frameworkRequest H frameworkName) s)) = Some response ->
  (forall fw, rs_status response = 200%Z ->
     rs_data response = FrameworkBody fw ->
     (annotations (metadata fw) = None
      \/ exists an, annotations (metadata fw) = Some an /\ an_config an = None) ->
     run h (Framework.getConfig H frameworkName) s
     = ([frameworkRequest H frameworkName],
        Throw (Thrown (createError H (JStr (str "Not Found"))
                         (str "NoJobConfigError")
                 (JStr (str "Config of job " ++ frameworkName
                          ++ str " is not found.")))),
        snd (h (frameworkRequest H frameworkName) s)))
  /\ (rs_status response = 404%Z ->
      run h (Framework.getConfig H frameworkName) s
      = ([frameworkRequest H frameworkName],
         Throw (Thrown (createError H (JStr (str "Not Found"))
                          (str "NoJobError")
                  (JStr (str "Job " ++ frameworkName ++ str " is not found.")))),
         snd (h (frameworkRequest H frameworkName) s)))
  /\ (forall fw an text, rs_status response = 200%Z ->
        rs_data response = FrameworkBody fw ->
        annotations (metadata fw) = Some an ->
        an_config an = Some text ->
        text <> [] ->
        run h (Framework.getConfig H frameworkName) s
        = ([frameworkRequest H frameworkName], safeLoad H text,
           snd (h (frameworkRequest H frameworkName) s))).
Proof.
  intro Hd. repeat split.
  - intros fw E Hb Hc. apply (run_axios _ _ h _ _ s response _ Hd). cbv beta.
    rewrite E, Hb. cbn [Z.eqb Pos.eqb status_OK Framework.storedConfig].
    destruct Hc as [Hc|(an & Hc & Hn)]; rewrite Hc; [reflexivity|].
    now rewrite Hn.
  - intro E. apply (run_axios _ _ h _ _ s response _ Hd). cbv beta.
    rewrite E. reflexivity.
  - intros fw an text E Hb Ha Hc Hne.
    apply (run_axios _ _ h _ _ s response _ Hd). cbv beta.
    rewrite E, Hb. cbn [Z.eqb Pos.eqb status_OK Framework.storedConfig].
    rewrite Ha, Hc. destruct text; [congruence|reflexivity].
Qed.

Lemma getConfig_outcomes_witness :
  run (answering
         (Fulfilled {| rs_status := 200;
                       rs_data := FrameworkBody
                         (exampleFramework (str "hex757365727e6a6f62")
                            TimeNull (Some (str "jobRetryCount: 0"))) |}))
      (Framework.getConfig exampleHost (str "user~job")) tt
  = ([frameworkRequest exampleHost (str "user~job")],
     safeLoad exampleHost (str "jobRetryCount: 0"), tt)
  /\ run (answering
            (Fulfilled {| rs_status := 200;
                          rs_data := FrameworkBody
                            (exampleFramework (str "hex757365727e6a6f62")
                               TimeNull None) |}))
         (Framework.getConfig exampleHost (str "user~job")) tt
     = ([frameworkRequest exampleHost (str "user~job")],
        Throw (Thrown (createError exampleHost (JStr (str "Not Found"))
                         (str "NoJobConfigError")
                 (JStr (str "Config of job user~job is not found.")))),
        tt)
  /\ run (answering (rejectedWith 404 "frameworks not found"))
         (Framework.getConfig exampleHost (str "user~job")) tt
     = ([frameworkRequest exampleHost (str "user~job")],
        Throw (Thrown (createError exampleHost (JStr (str "Not Found"))
                         (str "NoJobError")
                 (JStr (str "Job user~job is not found.")))),
        tt).
Proof.
  split; [|split].
  - destruct (getConfig_outcomes exampleHost unit
                (answering
                   (Fulfilled {| rs_status := 200;
                                 rs_data := FrameworkBody
                                   (exampleFramework (str "hex757365727e6a6f62")
                                      TimeNull
                                      (Some (str "jobRetryCount: 0"))) |}))
                tt (str "user~job") _ eq_refl) as (_ & _ & Hpresent).
    apply (Hpresent _ _ (str "jobRetryCount: 0") eq_refl eq_refl eq_refl eq_refl).
    discriminate.
  - destruct (getConfig_outcomes exampleHost unit
                (answering
                   (Fulfilled {| rs_status := 200;
                                 rs_data := FrameworkBody
                                   (exampleFramework (str "hex757365727e6a6f62")
                                      TimeNull None) |}))
                tt (str "user~job") _ eq_refl) as (Hmissing & _ & _).
    apply (Hmissing _ eq_refl eq_refl).
    right. eexists. split; reflexivity.
  - destruct (getConfig_outcomes exampleHost unit
                (answering (rejectedWith 404 "frameworks not found"))
                tt (str "user~job") _ eq_refl) as (_ & Hnotfound & _).
    apply Hnotfound. reflexivity.
Defined.

(** C7 (as stated) fails: a [config] annotation that is there with an
    empty text makes [getConfig] throw [NoJobConfigError], where loading
    that text returns a value. *)
Lemma getConfig_empty_counterexample :
  run (answering
         (Fulfilled {| rs_status := 200;
                       rs_data := FrameworkBody
                         (exampleFramework (str "hex757365727e6a6f62")
                            TimeNull (Some [])) |}))
      (Framework.getConfig exampleHost (str "user~job")) tt
  = ([frameworkRequest exampleHost (str "user~job")],
     Throw (Thrown (createError exampleHost (JStr (str "Not Found"))
                      (str "NoJobConfigError")
              (JStr (str "Config of job user~job is not found.")))),
     tt)
  /\ safeLoad exampleHost [] = Return JUndefined
  /\ Throw (Thrown (createError exampleHost (JStr (str "Not Found"))
                      (str "NoJobConfigError")
              (JStr (str "Config of job user~job is not found."))))
     <> safeLoad exampleHost [].
Proof.
  repeat split. discriminate.
Qed.

(** C8 (as amended).  [execute] makes one call, a merge patch whose body
    has only [spec.executionType]; the value sent is the first character
    of the execution type as it is, followed by the rest in lower case, so
    that STOP is sent as Stop and START as Start. *)
Theorem execute_request (H : Host) (S : Type)
  (h : Request -> S -> outcome Response AxiosError * S) (s : S)
  (frameworkName executionType : jsstring) :
  fst (fst (run h (Framework.execute H frameworkName executionType) s))
  = [patchRequest H frameworkName
       (charAt0 executionType
          ++ toLowerCase (unicodeLower H) (slice1 executionType))]
  /\ Framework.executionTypeSent H (str "STOP") = str "Stop"
  /\ Framework.executionTypeSent H (str "START") = str "Start".
Proof.
  repeat split.
  apply (run_one_call jsval S h). intro response. cbv beta.
  destruct (negb _); eexists; reflexivity.
Qed.

(** C8 (as stated) fails: the first letter is not capitalized, [stop] is
    sent as [stop]. *)
Lemma execute_capitalized_counterexample :
  fst (fst (run (answering (Fulfilled {| rs_status := 200;
                                         rs_data := StatusBody JUndefined |}))
             (Framework.execute exampleHost (str "user~job") (str "stop")) tt))
  = [patchRequest exampleHost (str "user~job") (str "stop")]
  /\ capitalized exampleHost (str "stop") = str "Stop"
  /\ str "stop" <> capitalized exampleHost (str "stop").
Proof.
  repeat split. discriminate.
Qed.

(* ----------------------------------------------------------------- *)
(** ** User model *)

(** C9.  [createUserIfNonExistent] first reads the user.  When the read
    succeeds it makes no other call; when the read fails with status 404
    it creates the user; when the read fails with any other error it
    throws that error and makes no other call. *)
Theorem createUserIfNonExistent_cases (crudConfig : jsval) (S : Type)
  (h : User.CrudCall -> S -> outcome jsval User.StoreError * S) (s : S)
  (username userValue : jsval) :
  let read := User.Read username crudConfig in
  let create := User.Create username userValue crudConfig in
  let p := User.createUserIfNonExistent crudConfig username userValue in
  (forall v, fst (h read s) = Fulfilled v ->
     run h p s = ([read], Return JUndefined, snd (h read s)))
  /\ (forall error, fst (h read s) = Rejected error ->
        User.se_status error = JNum 404 ->
        fst (fst (run h p s)) = [read; create]
        /\ snd (run h p s) = snd (h create (snd (h read s)))
        /\ snd (fst (run h p s))
           = match fst (h create (snd (h read s))) with
             | Fulfilled _ => Return JUndefined
             | Rejected e => Throw e
             end)
  /\ (forall error, fst (h read s) = Rejected error ->
        User.se_status error <> JNum 404 ->
        run h p s = ([read], Throw error, snd (h read s))).
Proof.
  cbv zeta.
  unfold User.createUserIfNonExistent, User.getUser, User.createUser, User.crud.
  cbn [andThen tryCatch run].
  destruct (h (User.Read username crudConfig) s) as [o s1]. cbn [fst snd].
  split; [|split].
  - intros v ->. reflexivity.
  - intros error -> E. cbn [andThen tryCatch run]. rewrite E.
    cbn [User.identicalNum Z.eqb Pos.eqb andThen tryCatch run].
    destruct (h (User.Create username userValue crudConfig) s1) as [o2 s2].
    destruct o2; repeat split.
  - intros error -> Hne. cbn [andThen tryCatch run].
    replace (User.identicalNum (User.se_status error) 404) with false;
      [reflexivity|].
    destruct (User.se_status error) as [| | |z| | | |]; try reflexivity.
    cbn [User.identicalNum]. symmetry. apply Z.eqb_neq. congruence.
Qed.

Lemma createUserIfNonExistent_cases_witness :
  run (storeWithUser (JStr (str "alice")))
      (User.createUserIfNonExistent JNull (JStr (str "alice")) JNull) 0
  = ([User.Read (JStr (str "alice")) JNull], Return JUndefined, 0)
  /\ fst (run (storeRejectingReads exampleNotFound)
            (User.createUserIfNonExistent JNull (JStr (str "bob")) JNull) 0)
     = ([User.Read (JStr (str "bob")) JNull;
         User.Create (JStr (str "bob")) JNull JNull], Return JUndefined)
  /\ run (storeRejectingReads exampleForbidden)
         (User.createUserIfNonExistent JNull (JStr (str "bob")) JNull) 0
     = ([User.Read (JStr (str "bob")) JNull], Throw exampleForbidden, 0).
Proof.
  split; [|split].
  - destruct (createUserIfNonExistent_cases JNull nat
                (storeWithUser (JStr (str "alice"))) 0
                (JStr (str "alice")) JNull) as (Hfound & _ & _).
    apply (Hfound (JStr (str "alice"))). reflexivity.
  - destruct (createUserIfNonExistent_cases JNull nat
                (storeRejectingReads exampleNotFound) 0
                (JStr (str "bob")) JNull) as (_ & Hmissing & _).
    destruct (Hmissing exampleNotFound eq_refl eq_refl) as (Hcalls & _ & Hres).
    rewrite (surjective_pairing (fst _)). now rewrite Hcalls, Hres.
  - destruct (createUserIfNonExistent_cases JNull nat
                (storeRejectingReads exampleForbidden) 0
                (JStr (str "bob")) JNull) as (_ & _ & Hother).
    apply (Hother exampleForbidden); [reflexivity|discriminate].
Defined.


(* ================================================================= *)
(** * Further properties *)

(** ** State mapper *)

Lemma isZero_true (v : jsval) : isZero v = true <-> v = JNum 0.
Proof.
  destruct v as [| | |z| | | |]; cbn [isZero]; try (split; discriminate).
  rewrite Z.eqb_eq. split; congruence.
Qed.

(** X1.  The job state tells the controller state apart: [SUCCEEDED] exactly
    for [Completed] with exit code 0, [FAILED] exactly for [Completed] with
    any other exit code, [RUNNING] exactly for [AttemptRunning], [WAITING]
    exactly for the seven other attempt states, [UNKNOWN] exactly for a
    state that is none of these. *)
Theorem convertState_characterised (state : jsstring) (exitCode : jsval) :
  (convertState state exitCode = str "SUCCEEDED"
   <-> state = str "Completed" /\ exitCode = JNum 0)
  /\ (convertState state exitCode = str "FAILED"
      <-> state = str "Completed" /\ exitCode <> JNum 0)
  /\ (convertState state exitCode = str "RUNNING"
      <-> state = str "AttemptRunning")
  /\ (convertState state exitCode = str "WAITING" <-> In state waitingStates)
  /\ (convertState state exitCode = str "UNKNOWN" <-> ~ In state knownStates).
Proof.
  unfold convertState, waitingStates, knownStates. cbn [map In].
  repeat match goal with
  | |- context [str_eqb state ?l] =>
      let E := fresh "E" in
      destruct (str_eqb state l) eqn:E;
      [ apply str_eqb_eq in E; subst state
      | assert (state <> l)
          by (intro; subst state; rewrite str_eqb_refl in E; discriminate E);
        clear E ]
  end; cbn [orb];
  try (destruct (isZero exitCode) eqn:Z;
       [ apply isZero_true in Z
       | assert (exitCode <> JNum 0)
           by (intro Z'; apply isZero_true in Z'; congruence) ]);
  repeat split; intros;
  try discriminate; try tauto;
  try (intuition (try discriminate; try congruence); fail).
Qed.

Lemma convertState_characterised_witness :
  convertState (str "AttemptPreparing") JNull = str "WAITING"
  /\ convertState (str "Completed") JNull = str "FAILED"
  /\ convertState (str "Completed") (JNum 0) <> str "FAILED".
Proof.
  split; [|split].
  - apply (convertState_characterised (str "AttemptPreparing") JNull).
    vm_compute. tauto.
  - apply (convertState_characterised (str "Completed") JNull).
    split; [reflexivity|discriminate].
  - intro E.
    apply (convertState_characterised (str "Completed") (JNum 0)) in E.
    now destruct E as [_ E].
Defined.

(** ** Name codec *)

Lemma filter_all (A : Type) (f : A -> bool) (l : list A) :
  Forall (fun x => f x = true) l -> filter f l = l.
Proof.
  induction 1 as [|x l Hx _ IH]; cbn [filter]; [reflexivity|].
  now rewrite Hx, IH.
Qed.

Lemma toLowerCase_lowerAlnum (U : jsstring -> jsstring) (r : jsstring) :
  Forall (fun c => isLowerAlnum c = true) r -> toLowerCase U r = r.
Proof.
  intro Hr. unfold toLowerCase.
  assert (Hb : forallb isBasicLatin r = true).
  { apply forallb_forall. rewrite Forall_forall in Hr. intros c Hc.
    specialize (Hr c Hc). unfold isLowerAlnum in Hr. unfold isBasicLatin.
    apply N.ltb_lt.
    apply orb_true_iff in Hr as [Hr|Hr]; apply andb_true_iff in Hr as [_ Hr];
      apply N.leb_le in Hr; lia. }
  rewrite Hb. clear Hb.
  induction Hr as [|c r Hc _ IH]; cbn [map]; [reflexivity|].
  rewrite IH. f_equal. unfold lowerLatin.
  replace ((65 <=? c)%N && (c <=? 90)%N) with false; [reflexivity|].
  symmetry. apply andb_false_iff. unfold isLowerAlnum in Hc.
  apply orb_true_iff in Hc as [Hc|Hc]; apply andb_true_iff in Hc as [Ha Hb];
    apply N.leb_le in Ha, Hb; [right|left]; apply N.leb_gt; lia.
Qed.

(** X2.  [convertName] is idempotent: a converted name is already a legal
    name and converting it again changes nothing. *)
Theorem convertName_idempotent (U : jsstring -> jsstring) (name : jsstring) :
  convertName U (convertName U name) = convertName U name.
Proof.
  assert (Hr : Forall (fun c => isLowerAlnum c = true) (convertName U name)).
  { unfold convertName. apply Forall_forall. intros c Hc.
    now apply filter_In in Hc. }
  unfold convertName at 1. rewrite (toLowerCase_lowerAlnum U _ Hr).
  now apply filter_all.
Qed.

(** X3.  On the lossless path the codec does not collide: two Basic Latin
    identifiers with a separator and without the [unknown] prefix that get
    the same controller name are the same identifier. *)
Theorem encodeName_injective (U : jsstring -> jsstring) (n1 n2 : jsstring) :
  Forall (fun c => (c < 128)%N) n1 ->
  Forall (fun c => (c < 128)%N) n2 ->
  startsWith n1 (str "unknown") = false -> includes n1 (str "~") = true ->
  startsWith n2 (str "unknown") = false -> includes n2 (str "~") = true ->
  encodeName U n1 = encodeName U n2 ->
  n1 = n2.
Proof.
  intros L1 L2 U1 I1 U2 I2. unfold encodeName.
  rewrite U1, I1, U2, I2. cbn [negb orb]. intro E.
  apply app_inv_head in E. apply (f_equal Buffer.from_hex) in E.
  rewrite (from_utf8_latin n1 L1), (from_utf8_latin n2 L2) in E.
  rewrite !from_hex_toString_hex in E; [exact E| |].
  - eapply Forall_impl; [|exact L2]. intros; cbv beta in *; lia.
  - eapply Forall_impl; [|exact L1]. intros; cbv beta in *; lia.
Qed.

Lemma encodeName_injective_witness :
  encodeName (unicodeLower exampleHost) (str "alice~job")
  <> encodeName (unicodeLower exampleHost) (str "bob~job").
Proof.
  intro E.
  apply (encodeName_injective (unicodeLower exampleHost)
           (str "alice~job") (str "bob~job")) in E;
    try reflexivity; try (repeat constructor; fail).
  discriminate E.
Defined.

Lemma splitTilde_none (s acc : jsstring) :
  ~ In tilde s -> splitTilde false acc s = [rev acc ++ s].
Proof.
  revert acc. induction s as [|c s IH]; intros acc Hn; cbn [splitTilde].
  - now rewrite app_nil_r.
  - assert (Hc : (c =? tilde)%N = false)
      by (apply N.eqb_neq; intro; apply Hn; left; congruence).
    rewrite Hc. cbn [andb]. rewrite IH by (intro; apply Hn; now right).
    cbn [rev]. now rewrite <- app_assoc.
Qed.

(** X4.  A controller name that carries the [hex] marker but whose decoded
    text has no separator decodes to [undefined], not to the name. *)
Theorem decodeName_without_separator (digits : jsstring) :
  ~ In tilde (Buffer.toString_ascii (Buffer.from_hex digits)) ->
  decodeName (str "hex" ++ digits) = JUndefined.
Proof.
  intro Hn. unfold decodeName. rewrite startsWith_app.
  unfold stripPrefix. rewrite startsWith_app.
  rewrite skipn_app, skipn_all, Nat.sub_diag. cbn [skipn app].
  unfold split_tilde_group. now rewrite (splitTilde_none _ [] Hn).
Qed.

Lemma decodeName_without_separator_witness :
  decodeName (str "hexagon") = JUndefined
  /\ decodeName (str "hex6a6f62") = JUndefined.
Proof.
  split.
  - apply (decodeName_without_separator (str "agon")).
    vm_compute. tauto.
  - apply (decodeName_without_separator (str "6a6f62")).
    vm_compute. intuition discriminate.
Defined.

(** A hexadecimal digit is read from the low byte of its code unit. *)
Example decodeName_low_byte :
  decodeName (str "hex" ++ [1591; 1637; 54; 50]%N) = JStr (str "b").
Proof. reflexivity. Qed.

(** ** Framework description builder *)

(** With the hived scheduler enabled, what [yaml.safeDump] throws for the
    pod specification leaves [generateTaskRole]. *)
Lemma generateTaskRole_dump_throws (H : Host) (taskRole : jsstring)
  (labels : list (jsstring * jsval)) (config : JobConfig)
  (role : TaskRoleConfig) (uri : jsval) (e : Exn) :
  lookup taskRole (taskRoles config) = Some role ->
  dockerImageUri config (dockerImage role) = Return uri ->
  truthy (enabledHived (launcherConfig H)) = true ->
  safeDump H (hivedPodSpec role) = Throw e ->
  generateTaskRole H taskRole labels config = Throw e.
Proof.
  intros Hr Hu Hh He. unfold generateTaskRole.
  now rewrite Hr, Hu, Hh, He.
Qed.

(** Array indices come first, in ascending order. *)
Example objectKeys_indices_first :
  objectKeys [ (str "b", tt); (str "10", tt); (str "1", tt); (str "01", tt) ]
  = [ str "1"; str "10"; str "b"; str "01" ].
Proof. reflexivity. Qed.

(** X5.  Every task role that is built is named by the converted role name
    and runs [instances] tasks, one when [instances] is missing or 0; its
    tasks are never retried on their own, whatever the job retry count. *)
Theorem generateTaskRole_fixed_parts (H : Host) (taskRole : jsstring)
  (labels : list (jsstring * jsval)) (config : JobConfig)
  (role : TaskRoleConfig) (d : jsval) :
  lookup taskRole (taskRoles config) = Some role ->
  generateTaskRole H taskRole labels config = Return d ->
  get "name" d = JStr (convertName (unicodeLower H) taskRole)
  /\ (forall n, instances role = JNum n -> n <> 0%Z ->
      get "taskNumber" d = JNum n)
  /\ (instances role = JUndefined \/ instances role = JNum 0 ->
      get "taskNumber" d = JNum 1)
  /\ getPath [Key "task"; Key "retryPolicy"] d
     = JObj [ "fancyRetryPolicy" :- JBool true; "maxRetryCount" :- JNum 0 ].
Proof.
  intros Hr Hd. unfold generateTaskRole in Hd. rewrite Hr in Hd.
  destruct (dockerImageUri config (dockerImage role)) as [uri|e];
    [|discriminate Hd].
  taskRole_built Hd;
    (split; [reflexivity|]; split; [|split; [|reflexivity]]).
  all: try (intros n E Hn; cbn; rewrite E; unfold orElse; cbn [truthy];
            apply Z.eqb_neq in Hn; now rewrite Hn).
  all: intros [E|E]; cbn; now rewrite E.
Qed.

(** X6.  The plain and the hived GPU requests exclude each other.  With
    hived enabled the limits of the main container have no
    [nvidia.com/gpu] and enable pod scheduling, the pod names the scheduler
    and carries the placement spec as [yaml.safeDump] returned it; without
    it the limits have [nvidia.com/gpu] and none of the hived fields exist.
    The cpu and memory limits are the same in both cases: the memory limit
    is [memoryMB] followed by [Mi], for a string and for an integer that
    a double holds exactly. *)
Theorem generateTaskRole_gpu_modes (H : Host) (taskRole : jsstring)
  (labels : list (jsstring * jsval)) (config : JobConfig)
  (role : TaskRoleConfig) (d : jsval) :
  lookup taskRole (taskRoles config) = Some role ->
  generateTaskRole H taskRole labels config = Return d ->
  let limits := getPath limitsPath d in
  let podSpec := getPath [Key "task"; Key "pod"; Key "spec"] d in
  let podAnnotations :=
    getPath [Key "task"; Key "pod"; Key "metadata"; Key "annotations"] d in
  get "cpu" limits = cpu (resourcePerInstance role)
  /\ (forall n, memoryMB (resourcePerInstance role) = JNum n ->
      exactInteger n = true ->
      get "memory" limits = JStr (decimal n ++ str "Mi"))
  /\ (forall s, memoryMB (resourcePerInstance role) = JStr s ->
      get "memory" limits = JStr (s ++ str "Mi"))
  /\ (truthy (enabledHived (launcherConfig H)) = true ->
      hasField "nvidia.com/gpu" limits = false
      /\ get "hivedscheduler.microsoft.com/pod-scheduling-enable" limits
         = JNum 1
      /\ get "schedulerName" podSpec = scheduler (launcherConfig H)
      /\ exists podSchedulingSpec,
           safeDump H (hivedPodSpec role) = Return podSchedulingSpec
           /\ get "hivedscheduler.microsoft.com/pod-scheduling-spec"
                podAnnotations
              = podSchedulingSpec)
  /\ (truthy (enabledHived (launcherConfig H)) = false ->
      hasField "nvidia.com/gpu" limits = true
      /\ get "nvidia.com/gpu" limits = gpu (resourcePerInstance role)
      /\ hasField "hivedscheduler.microsoft.com/pod-scheduling-enable" limits
         = false
      /\ hasField "schedulerName" podSpec = false
      /\ hasField "hivedscheduler.microsoft.com/pod-scheduling-spec"
           podAnnotations = false).
Proof.
  intros Hr Hd. unfold generateTaskRole in Hd. rewrite Hr in Hd.
  destruct (dockerImageUri config (dockerImage role)) as [uri|e];
    [|discriminate Hd].
  cbv zeta.
  taskRole_built Hd.
  - split; [reflexivity|]. split; [intros n E _; cbn; now rewrite E|].
    split; [intros s E; cbn; now rewrite E|].
    split; [|intro; discriminate].
    intros _. repeat split. eexists. split; [reflexivity|reflexivity].
  - split; [reflexivity|]. split; [intros n E _; cbn; now rewrite E|].
    split; [intros s E; cbn; now rewrite E|].
    split; [intro; discriminate|].
    intros _. repeat split.
Qed.

Lemma generateTaskRole_gpu_modes_witness :
  exists d,
    generateTaskRole exampleHost (str "worker") [] (exampleConfig (JNum 0) None)
    = Return d
    /\ get "nvidia.com/gpu" (getPath limitsPath d) = JNum 1
    /\ get "memory" (getPath limitsPath d) = JStr (str "8192Mi")
    /\ hasField "schedulerName"
         (getPath [Key "task"; Key "pod"; Key "spec"] d) = false.
Proof.
  eexists. split; [reflexivity|].
  destruct (generateTaskRole_gpu_modes exampleHost (str "worker") []
              (exampleConfig (JNum 0) None) (exampleRole None) _
              eq_refl eq_refl) as (_ & Hmem & _ & _ & Hplain).
  destruct (Hplain eq_refl) as (_ & Hgpu & _ & Hsched & _).
  split; [exact Hgpu|]. split; [exact (Hmem 8192%Z eq_refl eq_refl)|].
  exact Hsched.
Defined.

Lemma generateTaskRole_fixed_parts_witness :
  exists d,
    generateTaskRole exampleHost (str "Worker_1") [] idleConfig = Return d
    /\ get "name" d = JStr (str "worker1")
    /\ get "taskNumber" d = JNum 1.
Proof.
  eexists. split; [reflexivity|].
  match goal with
  | |- get "name" ?d = _ /\ _ =>
      destruct (generateTaskRole_fixed_parts exampleHost (str "Worker_1") []
                  idleConfig idleRole d eq_refl eq_refl)
        as (Hname & _ & Hone & _)
  end.
  split; [exact Hname|]. apply Hone. now right.
Defined.

(** ** Labels and task roles of the description *)

Lemma fillTaskRoles_names (H : Host) (labels : list (jsstring * jsval))
  (config : JobConfig) (envlist : list jsval) (names : list jsstring) :
  forall i ds,
    fillTaskRoles H labels config envlist names i = Return ds ->
    map (get "name") ds
    = map (fun n => JStr (convertName (unicodeLower H) n)) names.
Proof.
  induction names as [|taskRole rest IH]; intros i ds Hds;
    cbn [fillTaskRoles] in Hds.
  - injection Hds as <-. reflexivity.
  - destruct (generateTaskRole H taskRole labels config) as [d|e] eqn:Hd;
      [|discriminate Hds].
    destruct (fillTaskRoles H labels config envlist rest (S i)) as [ds'|e]
      eqn:Hrest; [|discriminate Hds].
    injection Hds as <-. cbn [map]. rewrite (IH _ _ Hrest). f_equal.
    match goal with
    | |- get "name" _ = ?r =>
        change (get "name"
                  (modifyAt envPath (push (taskRoleEnv H envlist i)) d) = r)
    end.
    unfold envPath. rewrite get_modifyAt_other by reflexivity.
    unfold generateTaskRole in Hd.
    destruct (lookup taskRole (taskRoles config)) as [role|];
      [|discriminate Hd].
    destruct (dockerImageUri config (dockerImage role)) as [uri|e];
      [|discriminate Hd].
    taskRole_built Hd; reflexivity.
Qed.

(** X7.  Every description that is built is a [Framework] named by the
    encoded framework name, stores the raw configuration as it is in the
    [config] annotation, starts with execution type [Start], and has one
    task role for each task role of the configuration, under their
    converted names, in the order [Object.keys] lists the roles: the order
    of the configuration when no role is named by an array index. *)
Theorem generateFrameworkDescription_shape (H : Host)
  (frameworkName : jsstring) (virtualCluster : jsval) (config : JobConfig)
  (rawConfig : jsval) (fd : jsval) :
  generateFrameworkDescription H frameworkName virtualCluster config rawConfig
  = Return fd ->
  get "kind" fd = JStr (str "Framework")
  /\ getPath [Key "metadata"; Key "name"] fd
     = JStr (encodeName (unicodeLower H) frameworkName)
  /\ getPath [Key "metadata"; Key "annotations"; Key "config"] fd = rawConfig
  /\ getPath [Key "spec"; Key "executionType"] fd = JStr (str "Start")
  /\ getPath [Key "metadata"; Key "labels"; Key "virtualCluster"] fd
     = virtualCluster
  /\ map (get "name") (elements (getPath [Key "spec"; Key "taskRoles"] fd))
     = map (fun taskRole => JStr (convertName (unicodeLower H) taskRole))
         (objectKeys (taskRoles config))
  /\ Permutation (objectKeys (taskRoles config)) (map fst (taskRoles config))
  /\ (Forall (fun taskRole => arrayIndex taskRole = None)
        (map fst (taskRoles config)) ->
      map (get "name") (elements (getPath [Key "spec"; Key "taskRoles"] fd))
      = map (fun role => JStr (convertName (unicodeLower H) (fst role)))
          (taskRoles config)).
Proof.
  intro Hfd. unfold generateFrameworkDescription in Hfd.
  match type of Hfd with
  | context [fillTaskRoles H ?lb config ?el ?ns 0] =>
      destruct (fillTaskRoles H lb config el ns 0) as [ds|e] eqn:Hds;
      [|discriminate Hfd]
  end.
  injection Hfd as <-.
  assert (Hnames :
            map (get "name") ds
            = map (fun taskRole => JStr (convertName (unicodeLower H) taskRole))
                (objectKeys (taskRoles config)))
    by exact (fillTaskRoles_names _ _ _ _ _ _ _ Hds).
  do 5 (split; [reflexivity|]).
  change (elements _) with ds.
  split; [exact Hnames|]. split; [apply objectKeys_perm|].
  intro Hall. rewrite Hnames, (objectKeys_names _ _ Hall).
  now rewrite map_map.
Qed.

Lemma generateFrameworkDescription_shape_witness :
  exists fd,
    generateFrameworkDescription exampleHost (str "alice~job")
      (JStr (str "vc1")) (exampleConfig (JNum 0) None)
      (JStr (str "taskRoles: ..."))
    = Return fd
    /\ getPath [Key "metadata"; Key "name"] fd
       = JStr (str "hex616c6963657e6a6f62")
    /\ getPath [Key "metadata"; Key "annotations"; Key "config"] fd
       = JStr (str "taskRoles: ...")
    /\ map (get "name") (elements (getPath [Key "spec"; Key "taskRoles"] fd))
       = [ JStr (str "worker") ].
Proof.
  eexists. split; [reflexivity|].
  match goal with
  | |- getPath _ ?fd = _ /\ _ =>
      destruct (generateFrameworkDescription_shape exampleHost
                  (str "alice~job") (JStr (str "vc1"))
                  (exampleConfig (JNum 0) None) (JStr (str "taskRoles: ..."))
                  fd eq_refl)
        as (_ & Hname & Hconfig & _ & _ & Hroles & _)
  end.
  split; [exact Hname|]. split; [exact Hconfig|exact Hroles].
Defined.

(** X8.  The labels of a description split the framework name at its first
    separator: [userName] is what precedes it and [jobName] what follows,
    later separators included.  A name without separator is the [userName]
    as a whole and leaves [jobName] undefined. *)
Theorem generateFrameworkDescription_labels (H : Host)
  (frameworkName : jsstring) (virtualCluster : jsval) (config : JobConfig)
  (rawConfig : jsval) (fd : jsval) :
  generateFrameworkDescription H frameworkName virtualCluster config rawConfig
  = Return fd ->
  let labels := getPath [Key "metadata"; Key "labels"] fd in
  (forall user job,
     frameworkName = user ++ tilde :: job ->
     ~ In tilde user -> job <> [] ->
     Forall (fun c => isLineTerminator c = false) job ->
     get "userName" labels = JStr user /\ get "jobName" labels = JStr job)
  /\ (~ In tilde frameworkName ->
      get "userName" labels = JStr frameworkName
      /\ get "jobName" labels = JUndefined).
Proof.
  intro Hfd. unfold generateFrameworkDescription in Hfd.
  match type of Hfd with
  | context [fillTaskRoles H ?lb config ?el ?ns 0] =>
      destruct (fillTaskRoles H lb config el ns 0) as [ds|e];
      [|discriminate Hfd]
  end.
  injection Hfd as <-. cbv zeta.
  change (getPath [Key "metadata"; Key "labels"] _)
    with (JObj [ "jobName" :- index (split_tilde_group frameworkName) 1;
                 "userName" :- index (split_tilde_group frameworkName) 0;
                 "virtualCluster" :- virtualCluster ]).
  change (get "userName" (JObj _))
    with (index (split_tilde_group frameworkName) 0).
  change (get "jobName" (JObj _))
    with (index (split_tilde_group frameworkName) 1).
  unfold split_tilde_group. split.
  - intros user job -> Hu Hne Hj.
    rewrite (splitTilde_first user job [] Hu Hne Hj). split; reflexivity.
  - intro Hn. rewrite (splitTilde_none frameworkName [] Hn).
    split; reflexivity.
Qed.

Lemma generateFrameworkDescription_labels_witness :
  exists fd,
    generateFrameworkDescription exampleHost (str "alice~my~job")
      (JStr (str "vc1")) (exampleConfig (JNum 0) None) JUndefined
    = Return fd
    /\ get "userName" (getPath [Key "metadata"; Key "labels"] fd)
       = JStr (str "alice")
    /\ get "jobName" (getPath [Key "metadata"; Key "labels"] fd)
       = JStr (str "my~job").
Proof.
  eexists. split; [reflexivity|].
  match goal with
  | |- get "userName" (getPath _ ?fd) = _ /\ _ =>
      destruct (generateFrameworkDescription_labels exampleHost
                  (str "alice~my~job") (JStr (str "vc1"))
                  (exampleConfig (JNum 0) None) JUndefined fd eq_refl)
        as (Hsplit & _)
  end.
  apply (Hsplit (str "alice") (str "my~job")).
  - reflexivity.
  - vm_compute. intuition discriminate.
  - discriminate.
  - repeat constructor.
Defined.





(** ** Requests to the framework controller, continued *)

Lemma run_axios_transport (A S : Type)
  (h : Request -> S -> outcome Response AxiosError * S)
  (request : Request) (k : Response -> Client A) (s : S) (error : AxiosError) :
  fst (h request s) = Rejected error ->
  ae_response error = None ->
  run h (axios request k) s
  = ([request], Throw (TransportError error), snd (h request s)).
Proof.
  intros Hr Hn. unfold axios. cbn [run].
  destruct (h request s) as [o s']. cbn [fst snd] in *. subst o.
  now rewrite Hn.
Qed.

(** X10.  A rejection of [axios] that carries no response is not
    classified: every operation throws the error it was rejected with, as
    it is, after its one request. *)
Theorem transport_failure_propagates (H : Host) (S : Type)
  (h : Request -> S -> outcome Response AxiosError * S) (s : S)
  (frameworkName executionType : jsstring) (request : Request)
  (error : AxiosError) :
  fst (h request s) = Rejected error ->
  ae_response error = None ->
  (request = listRequest H ->
   run h (Framework.list H) s
   = ([request], Throw (TransportError error), snd (h request s)))
  /\ (request = frameworkRequest H frameworkName ->
      run h (Framework.get H frameworkName) s
      = ([request], Throw (TransportError error), snd (h request s))
      /\ run h (Framework.getConfig H frameworkName) s
         = ([request], Throw (TransportError error), snd (h request s)))
  /\ (request
      = patchRequest H frameworkName
          (Framework.executionTypeSent H executionType) ->
      run h (Framework.execute H frameworkName executionType) s
      = ([request], Throw (TransportError error), snd (h request s)))
  /\ (forall config rawConfig fd,
        generateFrameworkDescription H frameworkName (virtualClusterOf config)
          config rawConfig = Return fd ->
        request = postRequest H fd ->
        run h (Framework.put H frameworkName config rawConfig) s
        = ([request], Throw (TransportError error), snd (h request s))).
Proof.
  intros Hr Hn. repeat split; intros; subst request.
  - now apply run_axios_transport.
  - now apply run_axios_transport.
  - now apply run_axios_transport.
  - now apply run_axios_transport.
  - unfold Framework.put.
    match goal with
    | Hfd : generateFrameworkDescription _ _ _ _ _ = Return _ |- _ =>
        unfold virtualClusterOf in Hfd; rewrite Hfd
    end.
    now apply run_axios_transport.
Qed.

Lemma transport_failure_propagates_witness :
  run (answering (Rejected networkDown)) (Framework.list exampleHost) tt
  = ([listRequest exampleHost], Throw (TransportError networkDown), tt).
Proof.
  apply (proj1 (transport_failure_propagates exampleHost unit
                  (answering (Rejected networkDown)) tt [] []
                  (listRequest exampleHost) networkDown eq_refl eq_refl)).
  reflexivity.
Defined.

(** X11.  [put] sends nothing when the description cannot be built and
    throws what the builder threw.  Otherwise it posts the description in
    one request, returns [undefined] on status 201 and throws
    [UnknownError] with the status and message of the response on any
    other status, 200 included. *)
Theorem put_outcomes (H : Host) (S : Type)
  (h : Request -> S -> outcome Response AxiosError * S) (s : S)
  (frameworkName : jsstring) (config : JobConfig) (rawConfig : jsval) :
  (forall e,
     generateFrameworkDescription H frameworkName (virtualClusterOf config)
       config rawConfig = Throw e ->
     run h (Framework.put H frameworkName config rawConfig) s = ([], Throw e, s))
  /\ (forall fd response,
        generateFrameworkDescription H frameworkName (virtualClusterOf config)
          config rawConfig = Return fd ->
        delivered (fst (h (postRequest H fd) s)) = Some response ->
        (rs_status response = 201%Z ->
         run h (Framework.put H frameworkName config rawConfig) s
         = ([postRequest H fd], Return JUndefined,
            snd (h (postRequest H fd) s)))
        /\ (rs_status response <> 201%Z ->
            run h (Framework.put H frameworkName config rawConfig) s
            = ([postRequest H fd],
               Throw (Thrown (createError H (JNum (rs_status response))
                                (str "UnknownError")
                                (data_message (rs_data response)))),
               snd (h (postRequest H fd) s)))).
Proof.
  split.
  - intros e He. unfold Framework.put. unfold virtualClusterOf in He.
    rewrite He. reflexivity.
  - intros fd response Hfd Hd. unfold Framework.put.
    unfold virtualClusterOf in Hfd. rewrite Hfd. split.
    + intro E. apply (run_axios _ _ h _ _ s response _ Hd). cbv beta.
      rewrite E. reflexivity.
    + intro E. apply (run_axios _ _ h _ _ s response _ Hd). cbv beta.
      apply Z.eqb_neq in E. unfold status_Created. rewrite E. reflexivity.
Qed.

Lemma put_outcomes_witness :
  run (answering (rejectedWith 409 "already exists"))
      (Framework.put exampleHost (str "alice~job") danglingConfig JUndefined) tt
  = ([], Throw TypeError, tt)
  /\ snd (fst (run (answering (Fulfilled {| rs_status := 200;
                                             rs_data := StatusBody JUndefined |}))
                 (Framework.put exampleHost (str "alice~job")
                    (exampleConfig (JNum 0) None) JUndefined) tt))
     = Throw (Thrown (createError exampleHost (JNum 200) (str "UnknownError")
                        JUndefined)).
Proof.
  split.
  - apply (proj1 (put_outcomes exampleHost unit
                    (answering (rejectedWith 409 "already exists")) tt
                    (str "alice~job") danglingConfig JUndefined)).
    reflexivity.
  - destruct (generateFrameworkDescription exampleHost (str "alice~job")
                (virtualClusterOf (exampleConfig (JNum 0) None))
                (exampleConfig (JNum 0) None) JUndefined)
      as [fd|e] eqn:Hfd; [|discriminate Hfd].
    destruct (proj2 (put_outcomes exampleHost unit
                (answering (Fulfilled {| rs_status := 200;
                                         rs_data := StatusBody JUndefined |}))
                tt (str "alice~job") (exampleConfig (JNum 0) None) JUndefined)
                fd _ Hfd eq_refl) as (_ & Hother).
    rewrite Hother by discriminate. reflexivity.
Defined.

(** X12.  The virtual cluster label of the description [put] posts is the
    one of [defaults] in the configuration, and [default] when there is no
    [defaults], or its virtual cluster is [null] or missing. *)
Theorem put_virtualCluster (H : Host) (frameworkName : jsstring)
  (config : JobConfig) (rawConfig : jsval) (fd : jsval) (S : Type)
  (h : Request -> S -> outcome Response AxiosError * S) (s : S) :
  generateFrameworkDescription H frameworkName (virtualClusterOf config)
    config rawConfig = Return fd ->
  fst (fst (run h (Framework.put H frameworkName config rawConfig) s))
  = [postRequest H fd]
  /\ (forall vc, defaults_virtualCluster config = Some vc ->
      vc <> JNull -> vc <> JUndefined ->
      getPath [Key "metadata"; Key "labels"; Key "virtualCluster"] fd = vc)
  /\ (defaults_virtualCluster config = None
      \/ defaults_virtualCluster config = Some JNull
      \/ defaults_virtualCluster config = Some JUndefined ->
      getPath [Key "metadata"; Key "labels"; Key "virtualCluster"] fd
      = JStr (str "default")).
Proof.
  intro Hfd.
  assert (Hvc : getPath [Key "metadata"; Key "labels"; Key "virtualCluster"] fd
                = virtualClusterOf config).
  { unfold generateFrameworkDescription in Hfd.
    match type of Hfd with
    | context [fillTaskRoles H ?lb config ?el ?ns 0] =>
        destruct (fillTaskRoles H lb config el ns 0) as [ds|e];
        [|discriminate Hfd]
    end.
    injection Hfd as <-. reflexivity. }
  split; [|split].
  - unfold Framework.put. unfold virtualClusterOf in Hfd. rewrite Hfd.
    apply (run_one_call jsval S h). intro response. cbv beta.
    destruct (negb _); eexists; reflexivity.
  - intros vc E N1 N2. rewrite Hvc. unfold virtualClusterOf. rewrite E.
    destruct vc; congruence.
  - intros [E|[E|E]]; rewrite Hvc; unfold virtualClusterOf; now rewrite E.
Qed.

Lemma put_virtualCluster_witness :
  exists fd,
    generateFrameworkDescription exampleHost (str "alice~job")
      (virtualClusterOf (exampleConfig (JNum 0) None))
      (exampleConfig (JNum 0) None) JUndefined = Return fd
    /\ getPath [Key "metadata"; Key "labels"; Key "virtualCluster"] fd
       = JStr (str "default").
Proof.
  eexists. split; [reflexivity|].
  match goal with
  | |- getPath _ ?fd = _ =>
      destruct (put_virtualCluster exampleHost (str "alice~job")
                  (exampleConfig (JNum 0) None) JUndefined fd unit
                  (answering (rejectedWith 409 "already exists")) tt eq_refl)
        as (_ & _ & Hdefault)
  end.
  apply Hdefault. now left.
Defined.

(** X13.  For every list response with status 200 [list] returns exactly
    the summaries of the frameworks of the response, each once, whatever
    their times; with any other status, 404 included, it throws
    [UnknownError] with the status and message of the response. *)
Theorem list_outcomes (H : Host) (S : Type)
  (h : Request -> S -> outcome Response AxiosError * S) (s : S)
  (response : Response) :
  delivered (fst (h (listRequest H) s)) = Some response ->
  (forall items, rs_status response = 200%Z ->
     rs_data response = FrameworkListBody items ->
     exists frameworkList,
       run h (Framework.list H) s
       = ([listRequest H], Return (JArr frameworkList),
          snd (h (listRequest H) s))
       /\ Permutation (map (convertFrameworkSummary H) items) frameworkList
       /\ List.length frameworkList = List.length items)
  /\ (rs_status response <> 200%Z ->
      run h (Framework.list H) s
      = ([listRequest H],
         Throw (Thrown (createError H (JNum (rs_status response))
                          (str "UnknownError")
                          (data_message (rs_data response)))),
         snd (h (listRequest H) s))).
Proof.
  intro Hd. split.
  - intros items E Hb.
    exists (sort (map (convertFrameworkSummary H) items)).
    split; [|split].
    + apply (run_axios _ _ h _ _ s response _ Hd). cbv beta.
      rewrite E, Hb. reflexivity.
    + apply sort_perm.
    + rewrite <- (Permutation_length (sort_perm _)). apply length_map.
  - intro E. apply (run_axios _ _ h _ _ s response _ Hd). cbv beta.
    apply Z.eqb_neq in E. unfold status_OK. rewrite E. reflexivity.
Qed.

Lemma list_outcomes_witness :
  run (answering (rejectedWith 404 "not found")) (Framework.list exampleHost) tt
  = ([listRequest exampleHost],
     Throw (Thrown (createError exampleHost (JNum 404) (str "UnknownError")
                      (JStr (str "not found")))),
     tt).
Proof.
  apply (proj2 (list_outcomes exampleHost unit
                  (answering (rejectedWith 404 "not found")) tt _ eq_refl)).
  discriminate.
Defined.

(** X14.  [execute] returns [undefined] on status 200 and throws
    [UnknownError] with the status and message of the response on any
    other status: a patch of a framework that does not exist (404) is not
    reported as [NoJobError]. *)
Theorem execute_outcomes (H : Host) (S : Type)
  (h : Request -> S -> outcome Response AxiosError * S) (s : S)
  (frameworkName executionType : jsstring) (response : Response) :
  let request :=
    patchRequest H frameworkName (Framework.executionTypeSent H executionType)
  in
  delivered (fst (h request s)) = Some response ->
  (rs_status response = 200%Z ->
   run h (Framework.execute H frameworkName executionType) s
   = ([request], Return JUndefined, snd (h request s)))
  /\ (rs_status response <> 200%Z ->
      run h (Framework.execute H frameworkName executionType) s
      = ([request],
         Throw (Thrown (createError H (JNum (rs_status response))
                          (str "UnknownError")
                          (data_message (rs_data response)))),
         snd (h request s))).
Proof.
  intros request Hd. subst request. split.
  - intro E. apply (run_axios _ _ h _ _ s response _ Hd). cbv beta.
    rewrite E. reflexivity.
  - intro E. apply (run_axios _ _ h _ _ s response _ Hd). cbv beta.
    apply Z.eqb_neq in E. unfold status_OK. rewrite E. reflexivity.
Qed.

Lemma execute_outcomes_witness :
  run (answering (rejectedWith 404 "not found"))
      (Framework.execute exampleHost (str "alice~job") (str "STOP")) tt
  = ([patchRequest exampleHost (str "alice~job") (str "Stop")],
     Throw (Thrown (createError exampleHost (JNum 404) (str "UnknownError")
                      (JStr (str "not found")))),
     tt).
Proof.
  apply (proj2 (execute_outcomes exampleHost unit
                  (answering (rejectedWith 404 "not found")) tt
                  (str "alice~job") (str "STOP") _ eq_refl)).
  discriminate.
Defined.

(** ** Status projection *)

Section DetailFold.

Variable step : TaskRoleStatus -> list (jsstring * jsval)
                -> list (jsstring * jsval).

Lemma fold_assignRole_other (k : string) (l : list TaskRoleStatus)
  (detail : jsval) :
  str_eqb (str k) (str "taskRoles") = false ->
  get k (fold_left (assignRole step) l detail) = get k detail.
Proof.
  intro Hk. revert detail.
  induction l as [|r l IH]; intro detail; cbn [fold_left]; [reflexivity|].
  rewrite IH. unfold assignRole. now apply get_modifyAt_other.
Qed.

Lemma fold_assignRole_roles (l : list TaskRoleStatus)
  (fields roles : list (jsstring * jsval)) :
  getField (str "taskRoles") fields = JObj roles ->
  get "taskRoles" (fold_left (assignRole step) l (JObj fields))
  = JObj (fold_left (fun fs r => step r fs) l roles).
Proof.
  revert fields roles.
  induction l as [|r l IH]; intros fields roles Hf; cbn [fold_left].
  - exact Hf.
  - unfold assignRole at 2. cbn [modifyAt]. rewrite Hf.
    apply IH. apply getField_setField_same.
Qed.

End DetailFold.

(** The loop of [convertFrameworkDetail], as a fold of [assignRole]. *)
Ltac fold_detail :=
  unfold convertFrameworkDetail;
  match goal with
  | |- context [fold_left ?f ?l ?d] =>
      change (fold_left f l d) with (fold_left (assignRole setRole) l d)
  end.

Lemma detail_jobStatus (H : Host) (fw : Framework) (k : string) :
  In k sharedFields ->
  get k (get "jobStatus" (convertFrameworkDetail H fw))
  = get k (convertFrameworkSummary H fw).
Proof.
  intro Hk. fold_detail.
  rewrite (fold_assignRole_other setRole "jobStatus" _ _ eq_refl).
  unfold sharedFields in Hk. cbn [In] in Hk.
  repeat (destruct Hk as [<-|Hk]; [reflexivity|]). contradiction.
Qed.

(** X15.  On status 200 with a framework, [get] returns
    [convertFrameworkDetail] of it, and that detail agrees with the summary
    [list] gives for the same framework on the name and on every field of
    the job status they share (user name, state, sub state, execution
    type, retries and their split, created and completed time, exit code,
    virtual cluster). *)
Theorem get_agrees_with_list (H : Host) (S : Type)
  (h : Request -> S -> outcome Response AxiosError * S) (s : S)
  (frameworkName : jsstring) (response : Response) (fw : Framework) :
  delivered (fst (h (frameworkRequest H frameworkName) s)) = Some response ->
  rs_status response = 200%Z ->
  rs_data response = FrameworkBody fw ->
  run h (Framework.get H frameworkName) s
  = ([frameworkRequest H frameworkName],
     Return (convertFrameworkDetail H fw),
     snd (h (frameworkRequest H frameworkName) s))
  /\ get "name" (convertFrameworkDetail H fw)
     = get "name" (convertFrameworkSummary H fw)
  /\ (forall k, In k sharedFields ->
      get k (get "jobStatus" (convertFrameworkDetail H fw))
      = get k (convertFrameworkSummary H fw)).
Proof.
  intros Hd E Hb. split; [|split].
  - apply (run_axios _ _ h _ _ s response _ Hd). cbv beta.
    rewrite E, Hb. reflexivity.
  - fold_detail.
    rewrite (fold_assignRole_other setRole "name" _ _ eq_refl).
    reflexivity.
  - intros k Hk. now apply detail_jobStatus.
Qed.

Lemma get_agrees_with_list_witness :
  exists detail,
    run (answering
           (Fulfilled {| rs_status := 200;
                         rs_data := FrameworkBody
                           (exampleFramework (str "hex616c6963657e6a6f62")
                              (TimeString (str "1000")) None) |}))
        (Framework.get exampleHost (str "alice~job")) tt
    = ([frameworkRequest exampleHost (str "alice~job")], Return detail, tt)
    /\ get "name" detail = JStr (str "job")
    /\ get "state" (get "jobStatus" detail) = JStr (str "RUNNING").
Proof.
  destruct (get_agrees_with_list exampleHost unit
              (answering
                 (Fulfilled {| rs_status := 200;
                               rs_data := FrameworkBody
                                 (exampleFramework (str "hex616c6963657e6a6f62")
                                    (TimeString (str "1000")) None) |}))
              tt (str "alice~job") _ _ eq_refl eq_refl eq_refl)
    as (Hrun & Hname & Hshared).
  eexists. split; [exact Hrun|]. split.
  - rewrite Hname. reflexivity.
  - rewrite (Hshared "state"%string); [reflexivity|].
    unfold sharedFields. cbn [In]. tauto.
Defined.

(** X16.  In the summary and in the detail the retries split without
    loss when the two counts and their difference are integers a double
    holds exactly: the user part is the accountable count, the platform
    part the rest, the resource part 0, and the parts add up to
    [retries]. *)
Theorem retryDetails_split (H : Host) (fw : Framework) (view : jsval) :
  let total := totalRetriedCount (retryPolicyStatus (status fw)) in
  let accountable := accountableRetriedCount (retryPolicyStatus (status fw)) in
  exactInteger total = true ->
  exactInteger accountable = true ->
  exactInteger (total - accountable) = true ->
  view = convertFrameworkSummary H fw
  \/ view = get "jobStatus" (convertFrameworkDetail H fw) ->
  exists user platform,
    get "retryDetails" view
    = JObj [ "user" :- JNum user; "platform" :- JNum platform;
             "resource" :- JNum 0 ]
    /\ user = accountable
    /\ platform = (total - accountable)%Z
    /\ get "retries" view = JNum (user + platform + 0).
Proof.
  cbv zeta. intros Ht Ha Hp Hv.
  assert (Hs : get "retryDetails" view
               = get "retryDetails" (convertFrameworkSummary H fw)
               /\ get "retries" view
                  = get "retries" (convertFrameworkSummary H fw)).
  { destruct Hv as [->| ->]; [split; reflexivity|].
    split; apply detail_jobStatus; unfold sharedFields; cbn [In]; tauto. }
  destruct Hs as [-> ->].
  exists (accountableRetriedCount (retryPolicyStatus (status fw))),
         (totalRetriedCount (retryPolicyStatus (status fw))
          - accountableRetriedCount (retryPolicyStatus (status fw)))%Z.
  split; [|split; [reflexivity|split; [reflexivity|]]].
  - change (get "retryDetails" (convertFrameworkSummary H fw))
      with (retryDetails H (retryPolicyStatus (status fw))).
    unfold retryDetails, minusNum. now rewrite Ht, Ha, Hp.
  - cbn. f_equal. lia.
Qed.

Lemma retryDetails_split_witness :
  exists user platform,
    get "retryDetails"
      (convertFrameworkSummary exampleHost
         (exampleFramework (str "a") TimeNull None))
    = JObj [ "user" :- JNum user; "platform" :- JNum platform;
             "resource" :- JNum 0 ]
    /\ get "retries"
         (convertFrameworkSummary exampleHost
            (exampleFramework (str "a") TimeNull None))
       = JNum (user + platform + 0).
Proof.
  destruct (retryDetails_split exampleHost
              (exampleFramework (str "a") TimeNull None) _
              eq_refl eq_refl eq_refl (or_introl eq_refl))
    as (u & p & Hd & _ & _ & Hr).
  exists u, p. split; assumption.
Defined.

Lemma str_eqb_neq (a b : jsstring) : a <> b -> str_eqb a b = false.
Proof.
  intro Hn. destruct (str_eqb a b) eqn:E; [|reflexivity].
  apply str_eqb_eq in E. contradiction.
Qed.

Lemma fold_setRole_other (l : list TaskRoleStatus)
  (fs : list (jsstring * jsval)) (k : jsstring) :
  ~ In k (map trs_name l) ->
  getField k (fold_left (fun fs r => setRole r fs) l fs) = getField k fs.
Proof.
  revert fs. induction l as [|r l IH]; intros fs Hn; cbn [fold_left];
    [reflexivity|].
  cbn [map In] in Hn. rewrite IH by tauto.
  unfold setRole, assignOwn.
  destruct (str_eqb (trs_name r) (str "__proto__")); [reflexivity|].
  apply getField_setField_other.
  apply str_eqb_neq. intro E. apply Hn. left. now symmetry.
Qed.

Lemma fold_setRole_in (l : list TaskRoleStatus)
  (fs : list (jsstring * jsval)) (r : TaskRoleStatus) :
  NoDup (map trs_name l) -> In r l ->
  trs_name r <> str "__proto__" ->
  getField (trs_name r) (fold_left (fun fs r => setRole r fs) l fs)
  = taskRoleEntry r.
Proof.
  revert fs. induction l as [|x l IH]; intros fs Hd Hin Hp; [contradiction|].
  cbn [map] in Hd. inversion Hd as [|? ? Hx Hd']; subst.
  cbn [fold_left]. destruct Hin as [->|Hin].
  - rewrite (fold_setRole_other l _ _ Hx). unfold setRole, assignOwn.
    rewrite (str_eqb_neq _ _ Hp). apply getField_setField_same.
  - now apply IH.
Qed.

Lemma setField_keys (k k' : jsstring) (v : jsval)
  (fs : list (jsstring * jsval)) :
  In k (map fst (setField k' v fs)) <-> k = k' \/ In k (map fst fs).
Proof.
  induction fs as [|[k0 v0] fs IH]; cbn [setField map fst In].
  - intuition.
  - destruct (str_eqb k' k0) eqn:E; cbn [map fst In].
    + apply str_eqb_eq in E. subst k0. intuition.
    + rewrite IH. intuition.
Qed.

(** The own keys of [taskRoles] after the loop. *)
Lemma fold_setRole_keys (l : list TaskRoleStatus)
  (fs : list (jsstring * jsval)) (k : jsstring) :
  In k (map fst (fold_left (fun fs r => setRole r fs) l fs))
  <-> In k (map fst fs)
      \/ (In k (map trs_name l) /\ k <> str "__proto__").
Proof.
  revert fs. induction l as [|r l IH]; intro fs; cbn [fold_left map In].
  - intuition.
  - rewrite IH. unfold setRole, assignOwn.
    destruct (str_eqb (trs_name r) (str "__proto__")) eqn:E.
    + apply str_eqb_eq in E. intuition congruence.
    + rewrite setField_keys.
      assert (trs_name r <> str "__proto__")
        by (intro E'; rewrite E', str_eqb_refl in E; discriminate E).
      intuition congruence.
Qed.

(** X17.  When the task role statuses of a framework have different
    names, [taskRoles] of the detail has, as own field under the name of
    each status that is not named [__proto__], its entry: the name and one
    task detail for each task status, in their order.  Its own fields are
    the names of these statuses and no other: the assignment to
    [__proto__] adds none. *)
Theorem convertFrameworkDetail_taskRoles (H : Host) (fw : Framework) :
  NoDup (map trs_name (taskRoleStatuses (attemptStatus (status fw)))) ->
  exists roles,
    get "taskRoles" (convertFrameworkDetail H fw) = JObj roles
    /\ (forall r, In r (taskRoleStatuses (attemptStatus (status fw))) ->
        trs_name r <> str "__proto__" ->
        getField (trs_name r) roles = taskRoleEntry r
        /\ elements (get "taskStatuses" (getField (trs_name r) roles))
           = map convertTaskDetail (taskStatuses r))
    /\ (forall name,
          In name (map fst roles)
          <-> In name
                (map trs_name (taskRoleStatuses (attemptStatus (status fw))))
              /\ name <> str "__proto__").
Proof.
  intro Hd.
  exists (fold_left (fun fs r => setRole r fs)
            (taskRoleStatuses (attemptStatus (status fw))) []).
  split; [|split].
  - fold_detail. now apply fold_assignRole_roles.
  - intros r Hr Hp. rewrite (fold_setRole_in _ _ r Hd Hr Hp).
    split; reflexivity.
  - intro name. rewrite fold_setRole_keys. cbn [map In]. tauto.
Qed.

Lemma convertFrameworkDetail_taskRoles_witness :
  exists roles,
    get "taskRoles" (convertFrameworkDetail exampleHost twoRoleFramework)
    = JObj roles
    /\ List.length
         (elements (get "taskStatuses" (getField (str "worker") roles)))
       = 2%nat
    /\ In (str "master") (map fst roles)
    /\ ~ In (str "evaluator") (map fst roles).
Proof.
  destruct (convertFrameworkDetail_taskRoles exampleHost twoRoleFramework)
    as (roles & Hroles & Hin & Hkeys).
  - repeat constructor; cbn [In]; intuition discriminate.
  - exists roles. split; [exact Hroles|]. split; [|split].
    + destruct (Hin workerStatus) as (_ & Hts);
        [right; now left|discriminate|].
      change (str "worker") with (trs_name workerStatus).
      rewrite Hts. reflexivity.
    + apply Hkeys. split; [now left|discriminate].
    + intro Hk. apply Hkeys in Hk. destruct Hk as [Hk _].
      cbn in Hk. intuition discriminate.
Defined.

Lemma convertState_succeeded (state : jsstring) (exitCode : jsval) :
  convertState state exitCode = str "SUCCEEDED" ->
  state = str "Completed" /\ exitCode = JNum 0.
Proof.
  unfold convertState.
  repeat match goal with
  | |- context [if ?b then _ else _] =>
      lazymatch b with
      | str_eqb state (str "Completed") => fail
      | isZero _ => fail
      | _ => destruct b; [discriminate|]
      end
  end.
  destruct (str_eqb state (str "Completed")) eqn:E; [|discriminate].
  destruct (isZero exitCode) eqn:Z; [|discriminate].
  intros _. split; [now apply str_eqb_eq|now apply isZero_true].
Qed.

(** X18.  A summary says [SUCCEEDED] exactly when the framework is
    [Completed] and its completion status has exit code 0.  A framework
    without completion status has [appExitCode] [null] and is never
    [SUCCEEDED]: when it is [Completed] it is reported [FAILED]. *)
Theorem summary_succeeded (H : Host) (fw : Framework) :
  let summary := convertFrameworkSummary H fw in
  (get "state" summary = JStr (str "SUCCEEDED")
   <-> state (status fw) = str "Completed"
       /\ exists cs,
            completionStatus (attemptStatus (status fw)) = Some cs
            /\ cs_code cs = JNum 0)
  /\ (completionStatus (attemptStatus (status fw)) = None ->
      get "appExitCode" summary = JNull
      /\ get "state" summary <> JStr (str "SUCCEEDED")
      /\ (state (status fw) = str "Completed" ->
          get "state" summary = JStr (str "FAILED"))).
Proof.
  cbv zeta.
  change (get "state" (convertFrameworkSummary H fw))
    with (JStr (convertState (state (status fw))
                  (orNull (completionStatus (attemptStatus (status fw)))
                     cs_code))).
  change (get "appExitCode" (convertFrameworkSummary H fw))
    with (orNull (completionStatus (attemptStatus (status fw))) cs_code).
  split; [split|].
  - intro E. injection E as E. apply convertState_succeeded in E as [Es Ec].
    split; [exact Es|].
    destruct (completionStatus (attemptStatus (status fw))) as [cs|];
      [|discriminate Ec].
    exists cs. split; [reflexivity|exact Ec].
  - intros (Es & cs & Hcs & Hc). rewrite Es, Hcs. cbn [orNull].
    rewrite Hc. reflexivity.
  - intro Hn. rewrite Hn. cbn [orNull]. split; [reflexivity|]. split.
    + intro E. injection E as E. apply convertState_succeeded in E as [_ Ec].
      discriminate Ec.
    + intro Es. rewrite Es. reflexivity.
Qed.

Lemma summary_succeeded_witness :
  get "state" (convertFrameworkSummary exampleHost lostFramework)
  = JStr (str "FAILED")
  /\ get "appExitCode" (convertFrameworkSummary exampleHost lostFramework)
     = JNull.
Proof.
  destruct (summary_succeeded exampleHost lostFramework) as (_ & Hnone).
  destruct (Hnone eq_refl) as (Hcode & _ & Hfailed).
  split; [now apply Hfailed|exact Hcode].
Defined.

(** ** Execution type *)

Lemma basicLatin_forallb (t : jsstring) :
  Forall (fun c => (c < 128)%N) t -> forallb isBasicLatin t = true.
Proof.
  intro Ht. apply forallb_forall. rewrite Forall_forall in Ht.
  intros c Hc. apply N.ltb_lt. now apply Ht.
Qed.

Lemma toLowerCase_latin (U : jsstring -> jsstring) (t : jsstring) :
  Forall (fun c => (c < 128)%N) t -> toLowerCase U t = map lowerLatin t.
Proof.
  intro Ht. unfold toLowerCase. now rewrite (basicLatin_forallb t Ht).
Qed.

Lemma lowerLatin_spec (c : N) :
  (c < 128)%N ->
  (lowerLatin c < 128)%N
  /\ lowerLatin (lowerLatin c) = lowerLatin c
  /\ isUpperLatin (lowerLatin c) = false.
Proof.
  intro Hc. unfold lowerLatin, isUpperLatin.
  destruct (N.leb_spec 65 c) as [L1|L1], (N.leb_spec c 90) as [L2|L2];
    cbn [andb];
    repeat match goal with
    | |- context [(?a <=? ?b)%N] => destruct (N.leb_spec a b)
    end; cbn [andb]; repeat split; try reflexivity; lia.
Qed.

(** X19.  For an execution type of Basic Latin characters the value sent
    keeps the first character and the length, has no upper-case letter
    after the first character, and is sent unchanged when it is passed
    again: execution types that differ only in the case of their letters
    after the first are sent as the same value. *)
Theorem executionTypeSent_normal (H : Host) (t : jsstring) :
  Forall (fun c => (c < 128)%N) t ->
  charAt0 (Framework.executionTypeSent H t) = charAt0 t
  /\ List.length (Framework.executionTypeSent H t) = List.length t
  /\ Forall (fun c => isUpperLatin c = false)
       (slice1 (Framework.executionTypeSent H t))
  /\ Framework.executionTypeSent H (Framework.executionTypeSent H t)
     = Framework.executionTypeSent H t.
Proof.
  intro Ht. unfold Framework.executionTypeSent.
  destruct t as [|c t]; [repeat split; constructor|].
  inversion Ht as [|? ? Hc Ht']; subst.
  cbn [charAt0 slice1 tl app].
  assert (Hl : Forall (fun c => (c < 128)%N) (map lowerLatin t)).
  { apply Forall_map. eapply Forall_impl; [|exact Ht'].
    intros x Hx. now apply lowerLatin_spec. }
  rewrite (toLowerCase_latin (unicodeLower H) t Ht').
  cbn [charAt0 slice1 tl app].
  rewrite (toLowerCase_latin (unicodeLower H) _ Hl).
  repeat split.
  - cbn [List.length]. now rewrite length_map.
  - apply Forall_map. eapply Forall_impl; [|exact Ht'].
    intros x Hx. now apply lowerLatin_spec.
  - rewrite map_map. f_equal.
    apply map_ext_in. intros x Hx. rewrite Forall_forall in Ht'.
    now apply lowerLatin_spec, Ht'.
Qed.

Lemma executionTypeSent_normal_witness :
  Framework.executionTypeSent exampleHost
    (Framework.executionTypeSent exampleHost (str "SToP"))
  = Framework.executionTypeSent exampleHost (str "SToP").
Proof.
  apply (executionTypeSent_normal exampleHost (str "SToP")).
  repeat constructor.
Defined.

(** ** User model, continued *)

Lemma includes_In (l : list jsstring) (name : jsstring) :
  UserAccess.includes l name = true <-> In name l.
Proof.
  unfold UserAccess.includes. rewrite existsb_exists. split.
  - intros (x & Hx & E). apply str_eqb_eq in E. now subst.
  - intro Hin. exists name. split; [exact Hin|apply str_eqb_refl].
Qed.

(** X20.  [checkUserGroup] reads the user once and answers true exactly
    when the user is in the group or in the admin group, so that an admin
    passes the check of every group; a failed read is thrown as it is. *)
Theorem checkUserGroup_result (crudConfig : jsval) (adminGroup : jsstring)
  (S : Type)
  (h : User.CrudCall -> S -> outcome UserAccess.UserInfo User.StoreError * S)
  (s : S) (username : jsval) (groupname : jsstring) :
  let read := User.Read username crudConfig in
  let p := UserAccess.checkUserGroup crudConfig adminGroup username groupname in
  (forall userInfo, fst (h read s) = Fulfilled userInfo ->
     exists ret,
       run h p s = ([read], Return ret, snd (h read s))
       /\ (ret = true
           <-> In groupname (UserAccess.grouplist userInfo)
               \/ In adminGroup (UserAccess.grouplist userInfo)))
  /\ (forall error, fst (h read s) = Rejected error ->
        run h p s = ([read], Throw error, snd (h read s))).
Proof.
  cbv zeta. unfold UserAccess.checkUserGroup. cbn [run].
  destruct (h (User.Read username crudConfig) s) as [o s1]. cbn [fst snd].
  split.
  - intros userInfo ->. eexists. split; [reflexivity|].
    rewrite <- !includes_In.
    destruct (UserAccess.includes (UserAccess.grouplist userInfo) groupname),
             (UserAccess.includes (UserAccess.grouplist userInfo) adminGroup);
      intuition discriminate.
  - intros error ->. reflexivity.
Qed.

Lemma checkUserGroup_result_witness :
  run (storeOfUser exampleUser)
      (UserAccess.checkUserGroup JNull (str "admingroup") (JStr (str "alice"))
         (str "research")) 0
  = ([User.Read (JStr (str "alice")) JNull], Return true, 0).
Proof.
  destruct (proj1 (checkUserGroup_result JNull (str "admingroup") nat
                     (storeOfUser exampleUser) 0 (JStr (str "alice"))
                     (str "research")) exampleUser eq_refl)
    as (ret & Hrun & Hret).
  rewrite Hrun. repeat f_equal. apply Hret. right. cbn. tauto.
Defined.

(** X21.  [checkUserVC] reads the user once and answers true exactly when
    the virtual cluster is one of the user's or the user is in the admin
    group; a failed read is thrown as it is. *)
Theorem checkUserVC_result (crudConfig : jsval) (adminGroup : jsstring)
  (S : Type)
  (h : User.CrudCall -> S -> outcome UserAccess.UserInfo User.StoreError * S)
  (s : S) (username : jsval) (vcName : jsstring) :
  let read := User.Read username crudConfig in
  let p := UserAccess.checkUserVC crudConfig adminGroup username vcName in
  (forall userInfo, fst (h read s) = Fulfilled userInfo ->
     exists ret,
       run h p s = ([read], Return ret, snd (h read s))
       /\ (ret = true
           <-> In vcName (UserAccess.virtualCluster userInfo)
               \/ In adminGroup (UserAccess.grouplist userInfo)))
  /\ (forall error, fst (h read s) = Rejected error ->
        run h p s = ([read], Throw error, snd (h read s))).
Proof.
  cbv zeta. unfold UserAccess.checkUserVC. cbn [run].
  destruct (h (User.Read username crudConfig) s) as [o s1]. cbn [fst snd].
  split.
  - intros userInfo ->. eexists. split; [reflexivity|].
    rewrite <- !includes_In.
    destruct (UserAccess.includes (UserAccess.virtualCluster userInfo) vcName),
             (UserAccess.includes (UserAccess.grouplist userInfo) adminGroup);
      intuition discriminate.
  - intros error ->. reflexivity.
Qed.

Lemma checkUserVC_result_witness :
  run (storeOfUser exampleUser)
      (UserAccess.checkUserVC JNull (str "root") (JStr (str "alice"))
         (str "gpu-cluster")) 0
  = ([User.Read (JStr (str "alice")) JNull], Return false, 0).
Proof.
  destruct (proj1 (checkUserVC_result JNull (str "root") nat
                     (storeOfUser exampleUser) 0 (JStr (str "alice"))
                     (str "gpu-cluster")) exampleUser eq_refl)
    as (ret & Hrun & Hret).
  rewrite Hrun. repeat f_equal.
  destruct ret; [|reflexivity].
  destruct (proj1 Hret eq_refl) as [Hin|Hin]; cbn in Hin;
    intuition discriminate.
Defined.

(** X22.  The storage operations of the user model do not translate
    anything: each makes the one call of the storage engine it is named
    after, with the storage configuration, returns what the call is
    fulfilled with and throws what it is rejected with, not-found
    included.  [updateUser] passes [false] for an [updatePassword] that is
    missing or [undefined]. *)
Theorem crud_operations_transparent (crudConfig : jsval) (S : Type)
  (h : User.CrudCall -> S -> outcome jsval User.StoreError * S) (s : S)
  (username value updatePassword : jsval) (p : User.Store jsval)
  (c : User.CrudCall) :
  In (p, c)
     [ (User.getUser crudConfig username, User.Read username crudConfig);
       (User.getAllUser crudConfig, User.ReadAll crudConfig);
       (User.createUser crudConfig username value,
        User.Create username value crudConfig);
       (User.updateUser crudConfig username value updatePassword,
        User.Update username value crudConfig
          match updatePassword with
          | JUndefined => JBool false
          | _ => updatePassword
          end);
       (User.deleteUser crudConfig username,
        User.Remove username crudConfig) ] ->
  run h p s
  = ([c],
     match fst (h c s) with
     | Fulfilled v => Return v
     | Rejected error => Throw error
     end,
     snd (h c s)).
Proof.
  intro Hin. cbn [In] in Hin.
  repeat (destruct Hin as [E|Hin];
          [injection E as <- <-; unfold User.getUser, User.getAllUser,
             User.createUser, User.updateUser, User.deleteUser, User.crud,
             User.withDefault;
           cbv zeta; cbn [run];
           match goal with
           | |- context [h ?c s] => destruct (h c s) as [[v|e] s1]
           end; reflexivity|]).
  contradiction.
Qed.

Lemma crud_operations_transparent_witness :
  run (storeRejectingReads exampleNotFound)
      (User.getUser JNull (JStr (str "bob"))) 0
  = ([User.Read (JStr (str "bob")) JNull], Throw exampleNotFound, 0)
  /\ run (storeRejectingReads exampleNotFound)
         (User.deleteUser JNull (JStr (str "bob"))) 0
     = ([User.Remove (JStr (str "bob")) JNull], Return JUndefined, 1)
  /\ fst (fst (run (storeRejectingReads exampleNotFound)
                 (User.updateUser JNull (JStr (str "bob")) JNull JUndefined)
                 0))
     = [User.Update (JStr (str "bob")) JNull JNull (JBool false)].
Proof.
  split; [|split];
    [| |rewrite (crud_operations_transparent JNull nat
                   (storeRejectingReads exampleNotFound) 0
                   (JStr (str "bob")) JNull JUndefined _ _
                   (or_intror (or_intror (or_intror (or_introl eq_refl)))));
        reflexivity].
  - apply (crud_operations_transparent JNull nat
             (storeRejectingReads exampleNotFound) 0
             (JStr (str "bob")) JNull JNull).
    left. reflexivity.
  - apply (crud_operations_transparent JNull nat
             (storeRejectingReads exampleNotFound) 0
             (JStr (str "bob")) JNull JNull).
    do 4 right. left. reflexivity.
Defined.

(** ** More on names, totals and stored configurations *)

(** X23.  The lossy path.  A name that starts with [unknown] is encoded
    without that prefix, removed once, whether or not it has a separator;
    a name without separator is encoded as it is converted.  In both cases
    the result has no separator left, and when it does not start with
    [hex] it decodes to itself. *)
Theorem encodeName_lossy (U : jsstring -> jsstring) (name : jsstring) :
  (forall rest, name = str "unknown" ++ rest ->
     encodeName U name = convertName U rest)
  /\ (startsWith name (str "unknown") = false ->
      includes name (str "~") = false ->
      encodeName U name = convertName U name)
  /\ (startsWith name (str "unknown") = true
      \/ includes name (str "~") = false ->
      ~ In tilde (encodeName U name)
      /\ (startsWith (encodeName U name) (str "hex") = false ->
          decodeName (encodeName U name) = JStr (encodeName U name))).
Proof.
  split; [|split].
  - intros rest ->. unfold encodeName. rewrite startsWith_app. cbn [orb].
    unfold stripPrefix. rewrite startsWith_app.
    now rewrite skipn_app, skipn_all, Nat.sub_diag.
  - intros Hu Hi. unfold encodeName, stripPrefix. rewrite Hu, Hi. reflexivity.
  - intro Hl.
    assert (E : encodeName U name
                = convertName U (stripPrefix (str "unknown") name)).
    { unfold encodeName. destruct Hl as [-> | ->]; [reflexivity|].
      now rewrite orb_true_r. }
    split.
    + rewrite E. unfold convertName. intro Hin.
      apply filter_In in Hin as [_ Hin]. discriminate Hin.
    + intro Hh. unfold decodeName. now rewrite Hh.
Qed.

Lemma encodeName_lossy_witness :
  encodeName (unicodeLower exampleHost) (str "unknown~My_Job")
  = str "myjob"
  /\ decodeName (encodeName (unicodeLower exampleHost) (str "My-Job 2"))
     = JStr (str "myjob2").
Proof.
  destruct (encodeName_lossy (unicodeLower exampleHost)
              (str "unknown~My_Job")) as (Hprefix & _ & _).
  destruct (encodeName_lossy (unicodeLower exampleHost) (str "My-Job 2"))
    as (_ & _ & Hlossy).
  split.
  - rewrite (Hprefix (str "~My_Job") eq_refl). reflexivity.
  - destruct (Hlossy (or_intror eq_refl)) as (_ & Hdecode).
    rewrite (Hdecode eq_refl). reflexivity.
Defined.

Lemma flat_map_length_ext (A B C : Type) (f : A -> list B) (g : A -> list C)
  (l : list A) :
  (forall x, In x l -> List.length (f x) = List.length (g x)) ->
  List.length (flat_map f l) = List.length (flat_map g l).
Proof.
  induction l as [|x l IH]; intro Hfg; cbn [flat_map]; [reflexivity|].
  rewrite !length_app, (Hfg x (or_introl eq_refl)), IH; [reflexivity|].
  intros y Hy. apply Hfg. now right.
Qed.

Lemma fold_task_count (l : list TaskRoleStatus) (n : Z) :
  fold_left
    (fun num statuses =>
       (num + Z.of_nat (List.length (taskStatuses statuses)))%Z) l n
  = (n + Z.of_nat (List.length (flat_map taskStatuses l)))%Z.
Proof.
  revert n. induction l as [|r l IH]; intro n; cbn [fold_left flat_map].
  - cbn. lia.
  - rewrite IH, length_app. lia.
Qed.

(** X24.  The totals of a summary count what the detail lists: the number
    of task roles is the number of task role statuses and the number of
    tasks the number of all their task statuses; with different role
    names, none of them [__proto__], that is the number of task details
    under [taskRoles] of the detail. *)
Theorem summary_totals (H : Host) (fw : Framework) :
  let roles := taskRoleStatuses (attemptStatus (status fw)) in
  get "totalTaskRoleNumber" (convertFrameworkSummary H fw)
  = JNum (Z.of_nat (List.length roles))
  /\ get "totalTaskNumber" (convertFrameworkSummary H fw)
     = JNum (Z.of_nat (List.length (flat_map taskStatuses roles)))
  /\ (NoDup (map trs_name roles) ->
      ~ In (str "__proto__") (map trs_name roles) ->
      exists entries,
        get "taskRoles" (convertFrameworkDetail H fw) = JObj entries
        /\ get "totalTaskNumber" (convertFrameworkSummary H fw)
           = JNum (Z.of_nat
                     (List.length
                        (flat_map
                           (fun r =>
                              elements
                                (get "taskStatuses"
                                   (getField (trs_name r) entries)))
                           roles)))).
Proof.
  cbv zeta.
  assert (Ht : get "totalTaskNumber" (convertFrameworkSummary H fw)
               = JNum (Z.of_nat
                         (List.length
                            (flat_map taskStatuses
                               (taskRoleStatuses
                                  (attemptStatus (status fw))))))).
  { change (get "totalTaskNumber" (convertFrameworkSummary H fw))
      with (JNum (fold_left
                    (fun num statuses =>
                       (num + Z.of_nat
                                (List.length (taskStatuses statuses)))%Z)
                    (taskRoleStatuses (attemptStatus (status fw))) 0%Z)).
    now rewrite fold_task_count. }
  split; [reflexivity|]. split; [exact Ht|].
  intros Hd Hp.
  exists (fold_left (fun fs r => setRole r fs)
            (taskRoleStatuses (attemptStatus (status fw))) []).
  split.
  - fold_detail. now apply fold_assignRole_roles.
  - rewrite Ht. do 2 f_equal.
    apply flat_map_length_ext. intros r Hr.
    rewrite (fold_setRole_in _ _ r Hd Hr)
      by (intro E; apply Hp; rewrite <- E; now apply in_map).
    change (elements (get "taskStatuses" (taskRoleEntry r)))
      with (map convertTaskDetail (taskStatuses r)).
    now rewrite length_map.
Qed.

Lemma summary_totals_witness :
  get "totalTaskNumber" (convertFrameworkSummary exampleHost twoRoleFramework)
  = JNum 3
  /\ exists entries,
       get "taskRoles" (convertFrameworkDetail exampleHost twoRoleFramework)
       = JObj entries
       /\ List.length
            (flat_map
               (fun r =>
                  elements
                    (get "taskStatuses" (getField (trs_name r) entries)))
               [ masterStatus; workerStatus ])
          = 3%nat.
Proof.
  destruct (summary_totals exampleHost twoRoleFramework)
    as (_ & Htotal & Hdetail).
  split; [rewrite Htotal; reflexivity|].
  destruct Hdetail as (entries & Hentries & Hcount).
  - repeat constructor; cbn [In]; intuition discriminate.
  - cbn. intuition discriminate.
  - exists entries. split; [exact Hentries|].
    rewrite Htotal in Hcount. injection Hcount as Hcount.
    apply Nat2Z.inj. symmetry. exact Hcount.
Defined.

(** X25.  [getConfig] classifies the statuses as [get] does: any status
    other than 200 and 404 is thrown as [UnknownError] with the status and
    message of the response, for the same request as [get] makes. *)
Theorem getConfig_upstream_error (H : Host) (S : Type)
  (h : Request -> S -> outcome Response AxiosError * S) (s : S)
  (frameworkName : jsstring) (response : Response) :
  delivered (fst (h (frameworkRequest H frameworkName) s)) = Some response ->
  rs_status response <> 200%Z -> rs_status response <> 404%Z ->
  run h (Framework.getConfig H frameworkName) s
  = ([frameworkRequest H frameworkName],
     Throw (Thrown (createError H (JNum (rs_status response))
                      (str "UnknownError")
                      (data_message (rs_data response)))),
     snd (h (frameworkRequest H frameworkName) s)).
Proof.
  intros Hd E1 E2. apply (run_axios _ _ h _ _ s response _ Hd). cbv beta.
  apply Z.eqb_neq in E1, E2. unfold status_OK, status_NotFound.
  rewrite E1, E2. reflexivity.
Qed.

Lemma getConfig_upstream_error_witness :
  run (answering (rejectedWith 503 "unavailable"))
      (Framework.getConfig exampleHost (str "alice~job")) tt
  = ([frameworkRequest exampleHost (str "alice~job")],
     Throw (Thrown (createError exampleHost (JNum 503) (str "UnknownError")
                      (JStr (str "unavailable")))),
     tt).
Proof.
  apply (getConfig_upstream_error exampleHost unit
           (answering (rejectedWith 503 "unavailable")) tt
           (str "alice~job") _ eq_refl); discriminate.
Defined.
